(** * server/initializers/constants.ts

    A shallow embedding of the constants and configuration module: the
    literal tables, the [CONFIG] object with its data fields and getters,
    the test-instance override block, [getLocalConfigFilePath],
    [updateWebserverConfig] and [reloadConfig].

    The module is a sequence of top-level statements acting on module-level
    bindings, so it is modelled by explicit state passing over a record
    [ModuleState] holding every binding of the module.  The [throw] of the
    module and the exceptions of [config.get] are modelled by the [result]
    type. *)

From Stdlib Require Import ZArith String List Lia DecimalString.
From stdpp Require Import base gmap strings list fin_maps.

Open Scope Z_scope.

(** ** JavaScript values read from the configuration

    [config.get] is typed by its caller, but what it returns is whatever the
    configuration files contain.  Only primitive values are modelled, and
    numbers are the integer ones (ports, sizes, limits). *)

Inductive value :=
  | VUndefined
  | VNull
  | VBool (b : bool)
  | VNum (n : Z)
  | VStr (s : string).

#[global] Instance value_eq_dec : EqDecision value.
Proof. solve_decision. Defined.

(** [a === b] on primitive values. *)
Definition strict_eq (a b : value) : bool := bool_decide (a = b).

(** ToString, as applied by [+] with a string operand and by template
    literals.  Integers print in decimal. *)
Definition to_string (v : value) : string :=
  match v with
  | VUndefined => "undefined"
  | VNull => "null"
  | VBool true => "true"
  | VBool false => "false"
  | VNum n => NilZero.string_of_int (Z.to_int n)
  | VStr s => s
  end.

(** [hay.indexOf(needle)]: position of the first occurrence, or [-1]. *)
Definition indexOf (hay needle : string) : Z :=
  match String.index 0 needle hay with
  | Some i => Z.of_nat i
  | None => -1
  end.

(** ** Exceptions

    A computation that may throw returns a [result]; computations are
    sequenced with [x ← e; k], which stops at the first exception. *)

Inductive error := Error (message : string).

Inductive result (A : Type) :=
  | Ok (a : A)
  | Throw (e : error).
Arguments Ok {A} a.
Arguments Throw {A} e.

#[global] Instance result_ret : MRet result := fun A a => Ok a.

#[global] Instance result_bind : MBind result :=
  fun A B f r =>
    match r with
    | Ok a => f a
    | Throw e => Throw e
    end.

(** ** The [config] library object *)

Record ConfigSource := { name : string }.

Record IUtil := { getConfigSources : list ConfigSource }.

(** [config.get(key)] returns the setting, or throws: the library raises
    an exception for a key that is not defined. *)
Record IConfig := {
  get : string -> result value;
  util : IUtil
}.

(** ** The Node.js process around the module *)

(** What a file name of [require.cache] is bound to: the exports of the
    [config] library, or some other module. *)
Inductive cached :=
  | CachedConfig (c : IConfig)
  | CachedOther.

Record Runtime := {
  (** [process.env] *)
  env : gmap string string;
  (** [require.cache], by resolved file name *)
  require_cache : gmap string cached;
  (** [require.resolve('config')] *)
  resolve_config : string;
  (** what evaluating the [config] library yields at this moment, from the
      configuration files now on disk *)
  load_config : IConfig
}.

(** [require('config')]: the cached exports when the resolved file name is
    in the cache, otherwise the library is evaluated and cached. *)
Definition require_config (p : Runtime) : IConfig * Runtime :=
  match require_cache p !! resolve_config p with
  | Some (CachedConfig c) => (c, p)
  | _ =>
      (load_config p,
       {| env := env p;
          require_cache :=
            <[resolve_config p := CachedConfig (load_config p)]> (require_cache p);
          resolve_config := resolve_config p;
          load_config := load_config p |})
  end.

(** [process.env.X] used as a condition: defined and not the empty string. *)
Definition env_truthy (p : Runtime) (x : string) : option string :=
  match env p !! x with
  | Some s => if decide (s = EmptyString) then None else Some s
  | None => None
  end.

(** ** Imported helpers

    [helpers/core-utils] and Node's [path] are imported by the module; the
    module is embedded over any implementation of them. *)

Class CoreUtils := {
  buildPath : value -> string;
  isTestInstance : value;
  root : string;
  sanitizeHost : string -> string -> string;
  sanitizeUrl : string -> string
}.

Class NodePath := {
  dirname : string -> string;
  join : string -> string -> string
}.

(** [VideoPrivacy] of [shared/models/videos]: the enum is declared outside
    this module, which only uses its three members as computed keys. *)
Class VideoPrivacyEnum := {
  VideoPrivacy_PUBLIC : value;
  VideoPrivacy_UNLISTED : value;
  VideoPrivacy_PRIVATE : value
}.

(** ** Shapes of the module's object literals

    One record per object literal; nested literals are nested records.  The
    modules only give each literal its own name space, since several of them
    share property names ([PORT], [URL], [HOSTNAME], ...). *)

(** An enumeration table: the properties of the literal in source order.
    Numeric keys are property names, hence strings. *)
Abbreviation table := (list (string * string)).

Definition keys (t : table) : list string := t.*1.

(** [t[k]] *)
Fixpoint table_get (t : table) (k : string) : option string :=
  match t with
  | [] => None
  | (k', v) :: t' =>
      match table_get t' k with
      | Some v' => Some v'
      | None => if decide (k' = k) then Some v else None
      end
  end.

Module Size.
Record t := { width : Z; height : Z }.
End Size.

(** [{ min, max }], either bound possibly absent *)
Module Range.
Record t := { min : option Z; max : option Z }.
Definition set_max (x : option Z) (r : t) : t :=
  {| min := min r;
     max := x |}.
End Range.

Module SortableColumns.
Record t := {
    USERS : list string;
    ACCOUNTS : list string;
    JOBS : list string;
    VIDEO_ABUSES : list string;
    VIDEO_CHANNELS : list string;
    VIDEOS : list string;
    VIDEO_COMMENT_THREADS : list string;
    BLACKLISTS : list string;
    FOLLOWERS : list string;
    FOLLOWING : list string
  }.
End SortableColumns.

Module OauthLifetime.
Record t := { ACCESS_TOKEN : Z; REFRESH_TOKEN : Z }.
End OauthLifetime.

Module ActorFollowScore.
Record t := { PENALTY : Z; BONUS : Z; BASE : Z; MAX : Z }.
Definition set_BASE (x : Z) (r : t) : t :=
  {| PENALTY := PENALTY r;
     BONUS := BONUS r;
     BASE := x;
     MAX := MAX r |}.
End ActorFollowScore.

Module RemoteScheme.
Record t := { HTTP : string; WS : string }.
Definition set_HTTP (x : string) (r : t) : t :=
  {| HTTP := x;
     WS := WS r |}.
Definition set_WS (x : string) (r : t) : t :=
  {| HTTP := HTTP r;
     WS := x |}.
End RemoteScheme.

Module JobsFetchLimit.
Record t := { transcoding : Z; httpRequest : Z }.
End JobsFetchLimit.

Module Listen.
Record t := { PORT : value }.
End Listen.

Module Database.
Record t := {
    DBNAME : string;
    HOSTNAME : value;
    PORT : value;
    USERNAME : value;
    PASSWORD : value
  }.
End Database.

Module Storage.
Record t := {
    AVATARS_DIR : string;
    LOG_DIR : string;
    VIDEOS_DIR : string;
    THUMBNAILS_DIR : string;
    PREVIEWS_DIR : string;
    TORRENTS_DIR : string;
    CACHE_DIR : string
  }.
End Storage.

Module Webserver.
Record t := {
    SCHEME : string;
    WS : string;
    HOSTNAME : value;
    PORT : value;
    URL : string;
    HOST : string
  }.
Definition set_URL (x : string) (r : t) : t :=
  {| SCHEME := SCHEME r;
     WS := WS r;
     HOSTNAME := HOSTNAME r;
     PORT := PORT r;
     URL := x;
     HOST := HOST r |}.
Definition set_HOST (x : string) (r : t) : t :=
  {| SCHEME := SCHEME r;
     WS := WS r;
     HOSTNAME := HOSTNAME r;
     PORT := PORT r;
     URL := URL r;
     HOST := x |}.
End Webserver.

(** The data properties of [CONFIG].  Its getters ([ADMIN], [SIGNUP],
    [USER], [TRANSCODING], [CACHE]) hold no data: they are functions of the
    module state, defined with the module below. *)
Module Config.
Record t := {
    CUSTOM_FILE : string;
    LISTEN : Listen.t;
    DATABASE : Database.t;
    STORAGE : Storage.t;
    WEBSERVER : Webserver.t
  }.
Definition set_WEBSERVER (x : Webserver.t) (r : t) : t :=
  {| CUSTOM_FILE := CUSTOM_FILE r;
     LISTEN := LISTEN r;
     DATABASE := DATABASE r;
     STORAGE := STORAGE r;
     WEBSERVER := x |}.
End Config.

Module Constraints.
Module Users.
Record t := { USERNAME : Range.t; PASSWORD : Range.t; VIDEO_QUOTA : Range.t }.
End Users.
Module VideoAbuses.
Record t := { REASON : Range.t }.
End VideoAbuses.
Module VideoChannels.
Record t := { NAME : Range.t; DESCRIPTION : Range.t; URL : Range.t }.
End VideoChannels.
Module Videos.
Record t := {
      NAME : Range.t;
      TRUNCATED_DESCRIPTION : Range.t;
      DESCRIPTION : Range.t;
      EXTNAME : list string;
      INFO_HASH : Range.t;
      DURATION : Range.t;
      TAGS : Range.t;
      TAG : Range.t;
      THUMBNAIL : Range.t;
      THUMBNAIL_DATA : Range.t;
      VIEWS : Range.t;
      LIKES : Range.t;
      DISLIKES : Range.t;
      FILE_SIZE : Range.t;
      URL : Range.t
    }.
End Videos.
Module Avatar.
Record t := { EXTNAME : list string; FILE_SIZE : Range.t }.
Definition set_FILE_SIZE (x : Range.t) (r : t) : t :=
  {| EXTNAME := EXTNAME r;
     FILE_SIZE := x |}.
End Avatar.
Module Actors.
Record t := {
      PUBLIC_KEY : Range.t;
      PRIVATE_KEY : Range.t;
      URL : Range.t;
      AVATAR : Avatar.t
    }.
Definition set_AVATAR (x : Avatar.t) (r : t) : t :=
  {| PUBLIC_KEY := PUBLIC_KEY r;
     PRIVATE_KEY := PRIVATE_KEY r;
     URL := URL r;
     AVATAR := x |}.
End Actors.
Module VideoEvents.
Record t := { COUNT : Range.t }.
End VideoEvents.
Module VideoComments.
Record t := { TEXT : Range.t; URL : Range.t }.
End VideoComments.
Record t := {
    USERS : Users.t;
    VIDEO_ABUSES : VideoAbuses.t;
    VIDEO_CHANNELS : VideoChannels.t;
    VIDEOS : Videos.t;
    ACTORS : Actors.t;
    VIDEO_EVENTS : VideoEvents.t;
    VIDEO_COMMENTS : VideoComments.t
  }.
Definition set_ACTORS (x : Actors.t) (r : t) : t :=
  {| USERS := USERS r;
     VIDEO_ABUSES := VIDEO_ABUSES r;
     VIDEO_CHANNELS := VIDEO_CHANNELS r;
     VIDEOS := VIDEOS r;
     ACTORS := x;
     VIDEO_EVENTS := VIDEO_EVENTS r;
     VIDEO_COMMENTS := VIDEO_COMMENTS r |}.
End Constraints.

Module UrlMimeTypes.
Record t := { VIDEO : list string; TORRENT : list string; MAGNET : list string }.
End UrlMimeTypes.

Module ActivityPub.
Record t := {
    POTENTIAL_ACCEPT_HEADERS : list string;
    ACCEPT_HEADER : string;
    PUBLIC : string;
    COLLECTION_ITEMS_PER_PAGE : Z;
    FETCH_PAGE_LIMIT : Z;
    MAX_HTTP_ATTEMPT : Z;
    URL_MIME_TYPES : UrlMimeTypes.t;
    MAX_RECURSION_COMMENTS : Z;
    ACTOR_REFRESH_INTERVAL : Z
  }.
Definition set_COLLECTION_ITEMS_PER_PAGE (x : Z) (r : t) : t :=
  {| POTENTIAL_ACCEPT_HEADERS := POTENTIAL_ACCEPT_HEADERS r;
     ACCEPT_HEADER := ACCEPT_HEADER r;
     PUBLIC := PUBLIC r;
     COLLECTION_ITEMS_PER_PAGE := x;
     FETCH_PAGE_LIMIT := FETCH_PAGE_LIMIT r;
     MAX_HTTP_ATTEMPT := MAX_HTTP_ATTEMPT r;
     URL_MIME_TYPES := URL_MIME_TYPES r;
     MAX_RECURSION_COMMENTS := MAX_RECURSION_COMMENTS r;
     ACTOR_REFRESH_INTERVAL := ACTOR_REFRESH_INTERVAL r |}.
Definition set_ACTOR_REFRESH_INTERVAL (x : Z) (r : t) : t :=
  {| POTENTIAL_ACCEPT_HEADERS := POTENTIAL_ACCEPT_HEADERS r;
     ACCEPT_HEADER := ACCEPT_HEADER r;
     PUBLIC := PUBLIC r;
     COLLECTION_ITEMS_PER_PAGE := COLLECTION_ITEMS_PER_PAGE r;
     FETCH_PAGE_LIMIT := FETCH_PAGE_LIMIT r;
     MAX_HTTP_ATTEMPT := MAX_HTTP_ATTEMPT r;
     URL_MIME_TYPES := URL_MIME_TYPES r;
     MAX_RECURSION_COMMENTS := MAX_RECURSION_COMMENTS r;
     ACTOR_REFRESH_INTERVAL := x |}.
End ActivityPub.

Module StaticPaths.
Record t := {
    PREVIEWS : string;
    THUMBNAILS : string;
    TORRENTS : string;
    WEBSEED : string;
    AVATARS : string
  }.
End StaticPaths.

Module CacheDirectories.
Record t := { PREVIEWS : string }.
End CacheDirectories.

Module Cache.
Record t := { DIRECTORIES : CacheDirectories.t }.
End Cache.

(** ** The module's bindings

    [config] is the module-private variable of line 11; every other field
    is an exported binding, under its source name. *)
Record ModuleState := {
  config : IConfig;
  LAST_MIGRATION_VERSION : Z;
  API_VERSION : string;
  PAGINATION_COUNT_DEFAULT : Z;
  SORTABLE_COLUMNS : SortableColumns.t;
  OAUTH_LIFETIME : OauthLifetime.t;
  ACTOR_FOLLOW_SCORE : ActorFollowScore.t;
  FOLLOW_STATES : table;
  REMOTE_SCHEME : RemoteScheme.t;
  JOB_STATES : table;
  JOB_CATEGORIES : table;
  JOBS_FETCH_LIMIT_PER_CYCLE : JobsFetchLimit.t;
  JOBS_FETCHING_INTERVAL : Z;
  SCHEDULER_INTERVAL : Z;
  CONFIG : Config.t;
  CONSTRAINTS_FIELDS : Constraints.t;
  VIDEO_RATE_TYPES : table;
  VIDEO_CATEGORIES : table;
  VIDEO_LICENCES : table;
  VIDEO_LANGUAGES : table;
  VIDEO_PRIVACIES : table;
  VIDEO_MIMETYPE_EXT : table;
  AVATAR_MIMETYPE_EXT : table;
  SERVER_ACTOR_NAME : string;
  ACTIVITY_PUB : ActivityPub.t;
  ACTIVITY_PUB_ACTOR_TYPES : table;
  PRIVATE_RSA_KEY_SIZE : Z;
  BCRYPT_SALT_SIZE : Z;
  STATIC_PATHS : StaticPaths.t;
  STATIC_MAX_AGE : string;
  THUMBNAILS_SIZE : Size.t;
  PREVIEWS_SIZE : Size.t;
  AVATARS_SIZE : Size.t;
  EMBED_SIZE : Size.t;
  CACHE : Cache.t;
  ACCEPT_HEADERS : list string;
  OPENGRAPH_AND_OEMBED_COMMENT : string
}.

(** ** Assignments

    One function per binding or property the module assigns to; each
    rebuilds the record with that one field replaced. *)

Definition set_config (x : IConfig) (m : ModuleState) : ModuleState :=
  {| config := x;
     LAST_MIGRATION_VERSION := LAST_MIGRATION_VERSION m;
     API_VERSION := API_VERSION m;
     PAGINATION_COUNT_DEFAULT := PAGINATION_COUNT_DEFAULT m;
     SORTABLE_COLUMNS := SORTABLE_COLUMNS m;
     OAUTH_LIFETIME := OAUTH_LIFETIME m;
     ACTOR_FOLLOW_SCORE := ACTOR_FOLLOW_SCORE m;
     FOLLOW_STATES := FOLLOW_STATES m;
     REMOTE_SCHEME := REMOTE_SCHEME m;
     JOB_STATES := JOB_STATES m;
     JOB_CATEGORIES := JOB_CATEGORIES m;
     JOBS_FETCH_LIMIT_PER_CYCLE := JOBS_FETCH_LIMIT_PER_CYCLE m;
     JOBS_FETCHING_INTERVAL := JOBS_FETCHING_INTERVAL m;
     SCHEDULER_INTERVAL := SCHEDULER_INTERVAL m;
     CONFIG := CONFIG m;
     CONSTRAINTS_FIELDS := CONSTRAINTS_FIELDS m;
     VIDEO_RATE_TYPES := VIDEO_RATE_TYPES m;
     VIDEO_CATEGORIES := VIDEO_CATEGORIES m;
     VIDEO_LICENCES := VIDEO_LICENCES m;
     VIDEO_LANGUAGES := VIDEO_LANGUAGES m;
     VIDEO_PRIVACIES := VIDEO_PRIVACIES m;
     VIDEO_MIMETYPE_EXT := VIDEO_MIMETYPE_EXT m;
     AVATAR_MIMETYPE_EXT := AVATAR_MIMETYPE_EXT m;
     SERVER_ACTOR_NAME := SERVER_ACTOR_NAME m;
     ACTIVITY_PUB := ACTIVITY_PUB m;
     ACTIVITY_PUB_ACTOR_TYPES := ACTIVITY_PUB_ACTOR_TYPES m;
     PRIVATE_RSA_KEY_SIZE := PRIVATE_RSA_KEY_SIZE m;
     BCRYPT_SALT_SIZE := BCRYPT_SALT_SIZE m;
     STATIC_PATHS := STATIC_PATHS m;
     STATIC_MAX_AGE := STATIC_MAX_AGE m;
     THUMBNAILS_SIZE := THUMBNAILS_SIZE m;
     PREVIEWS_SIZE := PREVIEWS_SIZE m;
     AVATARS_SIZE := AVATARS_SIZE m;
     EMBED_SIZE := EMBED_SIZE m;
     CACHE := CACHE m;
     ACCEPT_HEADERS := ACCEPT_HEADERS m;
     OPENGRAPH_AND_OEMBED_COMMENT := OPENGRAPH_AND_OEMBED_COMMENT m |}.

Definition set_ACTOR_FOLLOW_SCORE (x : ActorFollowScore.t) (m : ModuleState) : ModuleState :=
  {| config := config m;
     LAST_MIGRATION_VERSION := LAST_MIGRATION_VERSION m;
     API_VERSION := API_VERSION m;
     PAGINATION_COUNT_DEFAULT := PAGINATION_COUNT_DEFAULT m;
     SORTABLE_COLUMNS := SORTABLE_COLUMNS m;
     OAUTH_LIFETIME := OAUTH_LIFETIME m;
     ACTOR_FOLLOW_SCORE := x;
     FOLLOW_STATES := FOLLOW_STATES m;
     REMOTE_SCHEME := REMOTE_SCHEME m;
     JOB_STATES := JOB_STATES m;
     JOB_CATEGORIES := JOB_CATEGORIES m;
     JOBS_FETCH_LIMIT_PER_CYCLE := JOBS_FETCH_LIMIT_PER_CYCLE m;
     JOBS_FETCHING_INTERVAL := JOBS_FETCHING_INTERVAL m;
     SCHEDULER_INTERVAL := SCHEDULER_INTERVAL m;
     CONFIG := CONFIG m;
     CONSTRAINTS_FIELDS := CONSTRAINTS_FIELDS m;
     VIDEO_RATE_TYPES := VIDEO_RATE_TYPES m;
     VIDEO_CATEGORIES := VIDEO_CATEGORIES m;
     VIDEO_LICENCES := VIDEO_LICENCES m;
     VIDEO_LANGUAGES := VIDEO_LANGUAGES m;
     VIDEO_PRIVACIES := VIDEO_PRIVACIES m;
     VIDEO_MIMETYPE_EXT := VIDEO_MIMETYPE_EXT m;
     AVATAR_MIMETYPE_EXT := AVATAR_MIMETYPE_EXT m;
     SERVER_ACTOR_NAME := SERVER_ACTOR_NAME m;
     ACTIVITY_PUB := ACTIVITY_PUB m;
     ACTIVITY_PUB_ACTOR_TYPES := ACTIVITY_PUB_ACTOR_TYPES m;
     PRIVATE_RSA_KEY_SIZE := PRIVATE_RSA_KEY_SIZE m;
     BCRYPT_SALT_SIZE := BCRYPT_SALT_SIZE m;
     STATIC_PATHS := STATIC_PATHS m;
     STATIC_MAX_AGE := STATIC_MAX_AGE m;
     THUMBNAILS_SIZE := THUMBNAILS_SIZE m;
     PREVIEWS_SIZE := PREVIEWS_SIZE m;
     AVATARS_SIZE := AVATARS_SIZE m;
     EMBED_SIZE := EMBED_SIZE m;
     CACHE := CACHE m;
     ACCEPT_HEADERS := ACCEPT_HEADERS m;
     OPENGRAPH_AND_OEMBED_COMMENT := OPENGRAPH_AND_OEMBED_COMMENT m |}.

Definition set_REMOTE_SCHEME (x : RemoteScheme.t) (m : ModuleState) : ModuleState :=
  {| config := config m;
     LAST_MIGRATION_VERSION := LAST_MIGRATION_VERSION m;
     API_VERSION := API_VERSION m;
     PAGINATION_COUNT_DEFAULT := PAGINATION_COUNT_DEFAULT m;
     SORTABLE_COLUMNS := SORTABLE_COLUMNS m;
     OAUTH_LIFETIME := OAUTH_LIFETIME m;
     ACTOR_FOLLOW_SCORE := ACTOR_FOLLOW_SCORE m;
     FOLLOW_STATES := FOLLOW_STATES m;
     REMOTE_SCHEME := x;
     JOB_STATES := JOB_STATES m;
     JOB_CATEGORIES := JOB_CATEGORIES m;
     JOBS_FETCH_LIMIT_PER_CYCLE := JOBS_FETCH_LIMIT_PER_CYCLE m;
     JOBS_FETCHING_INTERVAL := JOBS_FETCHING_INTERVAL m;
     SCHEDULER_INTERVAL := SCHEDULER_INTERVAL m;
     CONFIG := CONFIG m;
     CONSTRAINTS_FIELDS := CONSTRAINTS_FIELDS m;
     VIDEO_RATE_TYPES := VIDEO_RATE_TYPES m;
     VIDEO_CATEGORIES := VIDEO_CATEGORIES m;
     VIDEO_LICENCES := VIDEO_LICENCES m;
     VIDEO_LANGUAGES := VIDEO_LANGUAGES m;
     VIDEO_PRIVACIES := VIDEO_PRIVACIES m;
     VIDEO_MIMETYPE_EXT := VIDEO_MIMETYPE_EXT m;
     AVATAR_MIMETYPE_EXT := AVATAR_MIMETYPE_EXT m;
     SERVER_ACTOR_NAME := SERVER_ACTOR_NAME m;
     ACTIVITY_PUB := ACTIVITY_PUB m;
     ACTIVITY_PUB_ACTOR_TYPES := ACTIVITY_PUB_ACTOR_TYPES m;
     PRIVATE_RSA_KEY_SIZE := PRIVATE_RSA_KEY_SIZE m;
     BCRYPT_SALT_SIZE := BCRYPT_SALT_SIZE m;
     STATIC_PATHS := STATIC_PATHS m;
     STATIC_MAX_AGE := STATIC_MAX_AGE m;
     THUMBNAILS_SIZE := THUMBNAILS_SIZE m;
     PREVIEWS_SIZE := PREVIEWS_SIZE m;
     AVATARS_SIZE := AVATARS_SIZE m;
     EMBED_SIZE := EMBED_SIZE m;
     CACHE := CACHE m;
     ACCEPT_HEADERS := ACCEPT_HEADERS m;
     OPENGRAPH_AND_OEMBED_COMMENT := OPENGRAPH_AND_OEMBED_COMMENT m |}.

Definition set_JOBS_FETCHING_INTERVAL (x : Z) (m : ModuleState) : ModuleState :=
  {| config := config m;
     LAST_MIGRATION_VERSION := LAST_MIGRATION_VERSION m;
     API_VERSION := API_VERSION m;
     PAGINATION_COUNT_DEFAULT := PAGINATION_COUNT_DEFAULT m;
     SORTABLE_COLUMNS := SORTABLE_COLUMNS m;
     OAUTH_LIFETIME := OAUTH_LIFETIME m;
     ACTOR_FOLLOW_SCORE := ACTOR_FOLLOW_SCORE m;
     FOLLOW_STATES := FOLLOW_STATES m;
     REMOTE_SCHEME := REMOTE_SCHEME m;
     JOB_STATES := JOB_STATES m;
     JOB_CATEGORIES := JOB_CATEGORIES m;
     JOBS_FETCH_LIMIT_PER_CYCLE := JOBS_FETCH_LIMIT_PER_CYCLE m;
     JOBS_FETCHING_INTERVAL := x;
     SCHEDULER_INTERVAL := SCHEDULER_INTERVAL m;
     CONFIG := CONFIG m;
     CONSTRAINTS_FIELDS := CONSTRAINTS_FIELDS m;
     VIDEO_RATE_TYPES := VIDEO_RATE_TYPES m;
     VIDEO_CATEGORIES := VIDEO_CATEGORIES m;
     VIDEO_LICENCES := VIDEO_LICENCES m;
     VIDEO_LANGUAGES := VIDEO_LANGUAGES m;
     VIDEO_PRIVACIES := VIDEO_PRIVACIES m;
     VIDEO_MIMETYPE_EXT := VIDEO_MIMETYPE_EXT m;
     AVATAR_MIMETYPE_EXT := AVATAR_MIMETYPE_EXT m;
     SERVER_ACTOR_NAME := SERVER_ACTOR_NAME m;
     ACTIVITY_PUB := ACTIVITY_PUB m;
     ACTIVITY_PUB_ACTOR_TYPES := ACTIVITY_PUB_ACTOR_TYPES m;
     PRIVATE_RSA_KEY_SIZE := PRIVATE_RSA_KEY_SIZE m;
     BCRYPT_SALT_SIZE := BCRYPT_SALT_SIZE m;
     STATIC_PATHS := STATIC_PATHS m;
     STATIC_MAX_AGE := STATIC_MAX_AGE m;
     THUMBNAILS_SIZE := THUMBNAILS_SIZE m;
     PREVIEWS_SIZE := PREVIEWS_SIZE m;
     AVATARS_SIZE := AVATARS_SIZE m;
     EMBED_SIZE := EMBED_SIZE m;
     CACHE := CACHE m;
     ACCEPT_HEADERS := ACCEPT_HEADERS m;
     OPENGRAPH_AND_OEMBED_COMMENT := OPENGRAPH_AND_OEMBED_COMMENT m |}.

Definition set_SCHEDULER_INTERVAL (x : Z) (m : ModuleState) : ModuleState :=
  {| config := config m;
     LAST_MIGRATION_VERSION := LAST_MIGRATION_VERSION m;
     API_VERSION := API_VERSION m;
     PAGINATION_COUNT_DEFAULT := PAGINATION_COUNT_DEFAULT m;
     SORTABLE_COLUMNS := SORTABLE_COLUMNS m;
     OAUTH_LIFETIME := OAUTH_LIFETIME m;
     ACTOR_FOLLOW_SCORE := ACTOR_FOLLOW_SCORE m;
     FOLLOW_STATES := FOLLOW_STATES m;
     REMOTE_SCHEME := REMOTE_SCHEME m;
     JOB_STATES := JOB_STATES m;
     JOB_CATEGORIES := JOB_CATEGORIES m;
     JOBS_FETCH_LIMIT_PER_CYCLE := JOBS_FETCH_LIMIT_PER_CYCLE m;
     JOBS_FETCHING_INTERVAL := JOBS_FETCHING_INTERVAL m;
     SCHEDULER_INTERVAL := x;
     CONFIG := CONFIG m;
     CONSTRAINTS_FIELDS := CONSTRAINTS_FIELDS m;
     VIDEO_RATE_TYPES := VIDEO_RATE_TYPES m;
     VIDEO_CATEGORIES := VIDEO_CATEGORIES m;
     VIDEO_LICENCES := VIDEO_LICENCES m;
     VIDEO_LANGUAGES := VIDEO_LANGUAGES m;
     VIDEO_PRIVACIES := VIDEO_PRIVACIES m;
     VIDEO_MIMETYPE_EXT := VIDEO_MIMETYPE_EXT m;
     AVATAR_MIMETYPE_EXT := AVATAR_MIMETYPE_EXT m;
     SERVER_ACTOR_NAME := SERVER_ACTOR_NAME m;
     ACTIVITY_PUB := ACTIVITY_PUB m;
     ACTIVITY_PUB_ACTOR_TYPES := ACTIVITY_PUB_ACTOR_TYPES m;
     PRIVATE_RSA_KEY_SIZE := PRIVATE_RSA_KEY_SIZE m;
     BCRYPT_SALT_SIZE := BCRYPT_SALT_SIZE m;
     STATIC_PATHS := STATIC_PATHS m;
     STATIC_MAX_AGE := STATIC_MAX_AGE m;
     THUMBNAILS_SIZE := THUMBNAILS_SIZE m;
     PREVIEWS_SIZE := PREVIEWS_SIZE m;
     AVATARS_SIZE := AVATARS_SIZE m;
     EMBED_SIZE := EMBED_SIZE m;
     CACHE := CACHE m;
     ACCEPT_HEADERS := ACCEPT_HEADERS m;
     OPENGRAPH_AND_OEMBED_COMMENT := OPENGRAPH_AND_OEMBED_COMMENT m |}.

Definition set_CONFIG (x : Config.t) (m : ModuleState) : ModuleState :=
  {| config := config m;
     LAST_MIGRATION_VERSION := LAST_MIGRATION_VERSION m;
     API_VERSION := API_VERSION m;
     PAGINATION_COUNT_DEFAULT := PAGINATION_COUNT_DEFAULT m;
     SORTABLE_COLUMNS := SORTABLE_COLUMNS m;
     OAUTH_LIFETIME := OAUTH_LIFETIME m;
     ACTOR_FOLLOW_SCORE := ACTOR_FOLLOW_SCORE m;
     FOLLOW_STATES := FOLLOW_STATES m;
     REMOTE_SCHEME := REMOTE_SCHEME m;
     JOB_STATES := JOB_STATES m;
     JOB_CATEGORIES := JOB_CATEGORIES m;
     JOBS_FETCH_LIMIT_PER_CYCLE := JOBS_FETCH_LIMIT_PER_CYCLE m;
     JOBS_FETCHING_INTERVAL := JOBS_FETCHING_INTERVAL m;
     SCHEDULER_INTERVAL := SCHEDULER_INTERVAL m;
     CONFIG := x;
     CONSTRAINTS_FIELDS := CONSTRAINTS_FIELDS m;
     VIDEO_RATE_TYPES := VIDEO_RATE_TYPES m;
     VIDEO_CATEGORIES := VIDEO_CATEGORIES m;
     VIDEO_LICENCES := VIDEO_LICENCES m;
     VIDEO_LANGUAGES := VIDEO_LANGUAGES m;
     VIDEO_PRIVACIES := VIDEO_PRIVACIES m;
     VIDEO_MIMETYPE_EXT := VIDEO_MIMETYPE_EXT m;
     AVATAR_MIMETYPE_EXT := AVATAR_MIMETYPE_EXT m;
     SERVER_ACTOR_NAME := SERVER_ACTOR_NAME m;
     ACTIVITY_PUB := ACTIVITY_PUB m;
     ACTIVITY_PUB_ACTOR_TYPES := ACTIVITY_PUB_ACTOR_TYPES m;
     PRIVATE_RSA_KEY_SIZE := PRIVATE_RSA_KEY_SIZE m;
     BCRYPT_SALT_SIZE := BCRYPT_SALT_SIZE m;
     STATIC_PATHS := STATIC_PATHS m;
     STATIC_MAX_AGE := STATIC_MAX_AGE m;
     THUMBNAILS_SIZE := THUMBNAILS_SIZE m;
     PREVIEWS_SIZE := PREVIEWS_SIZE m;
     AVATARS_SIZE := AVATARS_SIZE m;
     EMBED_SIZE := EMBED_SIZE m;
     CACHE := CACHE m;
     ACCEPT_HEADERS := ACCEPT_HEADERS m;
     OPENGRAPH_AND_OEMBED_COMMENT := OPENGRAPH_AND_OEMBED_COMMENT m |}.

Definition set_CONSTRAINTS_FIELDS (x : Constraints.t) (m : ModuleState) : ModuleState :=
  {| config := config m;
     LAST_MIGRATION_VERSION := LAST_MIGRATION_VERSION m;
     API_VERSION := API_VERSION m;
     PAGINATION_COUNT_DEFAULT := PAGINATION_COUNT_DEFAULT m;
     SORTABLE_COLUMNS := SORTABLE_COLUMNS m;
     OAUTH_LIFETIME := OAUTH_LIFETIME m;
     ACTOR_FOLLOW_SCORE := ACTOR_FOLLOW_SCORE m;
     FOLLOW_STATES := FOLLOW_STATES m;
     REMOTE_SCHEME := REMOTE_SCHEME m;
     JOB_STATES := JOB_STATES m;
     JOB_CATEGORIES := JOB_CATEGORIES m;
     JOBS_FETCH_LIMIT_PER_CYCLE := JOBS_FETCH_LIMIT_PER_CYCLE m;
     JOBS_FETCHING_INTERVAL := JOBS_FETCHING_INTERVAL m;
     SCHEDULER_INTERVAL := SCHEDULER_INTERVAL m;
     CONFIG := CONFIG m;
     CONSTRAINTS_FIELDS := x;
     VIDEO_RATE_TYPES := VIDEO_RATE_TYPES m;
     VIDEO_CATEGORIES := VIDEO_CATEGORIES m;
     VIDEO_LICENCES := VIDEO_LICENCES m;
     VIDEO_LANGUAGES := VIDEO_LANGUAGES m;
     VIDEO_PRIVACIES := VIDEO_PRIVACIES m;
     VIDEO_MIMETYPE_EXT := VIDEO_MIMETYPE_EXT m;
     AVATAR_MIMETYPE_EXT := AVATAR_MIMETYPE_EXT m;
     SERVER_ACTOR_NAME := SERVER_ACTOR_NAME m;
     ACTIVITY_PUB := ACTIVITY_PUB m;
     ACTIVITY_PUB_ACTOR_TYPES := ACTIVITY_PUB_ACTOR_TYPES m;
     PRIVATE_RSA_KEY_SIZE := PRIVATE_RSA_KEY_SIZE m;
     BCRYPT_SALT_SIZE := BCRYPT_SALT_SIZE m;
     STATIC_PATHS := STATIC_PATHS m;
     STATIC_MAX_AGE := STATIC_MAX_AGE m;
     THUMBNAILS_SIZE := THUMBNAILS_SIZE m;
     PREVIEWS_SIZE := PREVIEWS_SIZE m;
     AVATARS_SIZE := AVATARS_SIZE m;
     EMBED_SIZE := EMBED_SIZE m;
     CACHE := CACHE m;
     ACCEPT_HEADERS := ACCEPT_HEADERS m;
     OPENGRAPH_AND_OEMBED_COMMENT := OPENGRAPH_AND_OEMBED_COMMENT m |}.

Definition set_ACTIVITY_PUB (x : ActivityPub.t) (m : ModuleState) : ModuleState :=
  {| config := config m;
     LAST_MIGRATION_VERSION := LAST_MIGRATION_VERSION m;
     API_VERSION := API_VERSION m;
     PAGINATION_COUNT_DEFAULT := PAGINATION_COUNT_DEFAULT m;
     SORTABLE_COLUMNS := SORTABLE_COLUMNS m;
     OAUTH_LIFETIME := OAUTH_LIFETIME m;
     ACTOR_FOLLOW_SCORE := ACTOR_FOLLOW_SCORE m;
     FOLLOW_STATES := FOLLOW_STATES m;
     REMOTE_SCHEME := REMOTE_SCHEME m;
     JOB_STATES := JOB_STATES m;
     JOB_CATEGORIES := JOB_CATEGORIES m;
     JOBS_FETCH_LIMIT_PER_CYCLE := JOBS_FETCH_LIMIT_PER_CYCLE m;
     JOBS_FETCHING_INTERVAL := JOBS_FETCHING_INTERVAL m;
     SCHEDULER_INTERVAL := SCHEDULER_INTERVAL m;
     CONFIG := CONFIG m;
     CONSTRAINTS_FIELDS := CONSTRAINTS_FIELDS m;
     VIDEO_RATE_TYPES := VIDEO_RATE_TYPES m;
     VIDEO_CATEGORIES := VIDEO_CATEGORIES m;
     VIDEO_LICENCES := VIDEO_LICENCES m;
     VIDEO_LANGUAGES := VIDEO_LANGUAGES m;
     VIDEO_PRIVACIES := VIDEO_PRIVACIES m;
     VIDEO_MIMETYPE_EXT := VIDEO_MIMETYPE_EXT m;
     AVATAR_MIMETYPE_EXT := AVATAR_MIMETYPE_EXT m;
     SERVER_ACTOR_NAME := SERVER_ACTOR_NAME m;
     ACTIVITY_PUB := x;
     ACTIVITY_PUB_ACTOR_TYPES := ACTIVITY_PUB_ACTOR_TYPES m;
     PRIVATE_RSA_KEY_SIZE := PRIVATE_RSA_KEY_SIZE m;
     BCRYPT_SALT_SIZE := BCRYPT_SALT_SIZE m;
     STATIC_PATHS := STATIC_PATHS m;
     STATIC_MAX_AGE := STATIC_MAX_AGE m;
     THUMBNAILS_SIZE := THUMBNAILS_SIZE m;
     PREVIEWS_SIZE := PREVIEWS_SIZE m;
     AVATARS_SIZE := AVATARS_SIZE m;
     EMBED_SIZE := EMBED_SIZE m;
     CACHE := CACHE m;
     ACCEPT_HEADERS := ACCEPT_HEADERS m;
     OPENGRAPH_AND_OEMBED_COMMENT := OPENGRAPH_AND_OEMBED_COMMENT m |}.

Definition set_STATIC_MAX_AGE (x : string) (m : ModuleState) : ModuleState :=
  {| config := config m;
     LAST_MIGRATION_VERSION := LAST_MIGRATION_VERSION m;
     API_VERSION := API_VERSION m;
     PAGINATION_COUNT_DEFAULT := PAGINATION_COUNT_DEFAULT m;
     SORTABLE_COLUMNS := SORTABLE_COLUMNS m;
     OAUTH_LIFETIME := OAUTH_LIFETIME m;
     ACTOR_FOLLOW_SCORE := ACTOR_FOLLOW_SCORE m;
     FOLLOW_STATES := FOLLOW_STATES m;
     REMOTE_SCHEME := REMOTE_SCHEME m;
     JOB_STATES := JOB_STATES m;
     JOB_CATEGORIES := JOB_CATEGORIES m;
     JOBS_FETCH_LIMIT_PER_CYCLE := JOBS_FETCH_LIMIT_PER_CYCLE m;
     JOBS_FETCHING_INTERVAL := JOBS_FETCHING_INTERVAL m;
     SCHEDULER_INTERVAL := SCHEDULER_INTERVAL m;
     CONFIG := CONFIG m;
     CONSTRAINTS_FIELDS := CONSTRAINTS_FIELDS m;
     VIDEO_RATE_TYPES := VIDEO_RATE_TYPES m;
     VIDEO_CATEGORIES := VIDEO_CATEGORIES m;
     VIDEO_LICENCES := VIDEO_LICENCES m;
     VIDEO_LANGUAGES := VIDEO_LANGUAGES m;
     VIDEO_PRIVACIES := VIDEO_PRIVACIES m;
     VIDEO_MIMETYPE_EXT := VIDEO_MIMETYPE_EXT m;
     AVATAR_MIMETYPE_EXT := AVATAR_MIMETYPE_EXT m;
     SERVER_ACTOR_NAME := SERVER_ACTOR_NAME m;
     ACTIVITY_PUB := ACTIVITY_PUB m;
     ACTIVITY_PUB_ACTOR_TYPES := ACTIVITY_PUB_ACTOR_TYPES m;
     PRIVATE_RSA_KEY_SIZE := PRIVATE_RSA_KEY_SIZE m;
     BCRYPT_SALT_SIZE := BCRYPT_SALT_SIZE m;
     STATIC_PATHS := STATIC_PATHS m;
     STATIC_MAX_AGE := x;
     THUMBNAILS_SIZE := THUMBNAILS_SIZE m;
     PREVIEWS_SIZE := PREVIEWS_SIZE m;
     AVATARS_SIZE := AVATARS_SIZE m;
     EMBED_SIZE := EMBED_SIZE m;
     CACHE := CACHE m;
     ACCEPT_HEADERS := ACCEPT_HEADERS m;
     OPENGRAPH_AND_OEMBED_COMMENT := OPENGRAPH_AND_OEMBED_COMMENT m |}.

(** ** The literals, in source order *)

Definition range (lo hi : Z) : Range.t := {| Range.min := Some lo; Range.max := Some hi |}.
Definition at_least (lo : Z) : Range.t := {| Range.min := Some lo; Range.max := None |}.
Definition at_most (hi : Z) : Range.t := {| Range.min := None; Range.max := Some hi |}.

Module Initial.

Definition LAST_MIGRATION_VERSION : Z := 175.

Definition API_VERSION : string := "v1".

Definition PAGINATION_COUNT_DEFAULT : Z := 15.

Definition SORTABLE_COLUMNS : SortableColumns.t :=
  {| SortableColumns.USERS := [ "id"; "username"; "createdAt" ];
     SortableColumns.ACCOUNTS := [ "createdAt" ];
     SortableColumns.JOBS := [ "id"; "createdAt" ];
     SortableColumns.VIDEO_ABUSES := [ "id"; "createdAt" ];
     SortableColumns.VIDEO_CHANNELS := [ "id"; "name"; "updatedAt"; "createdAt" ];
     SortableColumns.VIDEOS := [ "name"; "duration"; "createdAt"; "views"; "likes" ];
     SortableColumns.VIDEO_COMMENT_THREADS := [ "createdAt" ];
     SortableColumns.BLACKLISTS :=
       [ "id"; "name"; "duration"; "views"; "likes"; "dislikes"; "uuid"; "createdAt" ];
     SortableColumns.FOLLOWERS := [ "createdAt" ];
     SortableColumns.FOLLOWING := [ "createdAt" ] |}.

Definition OAUTH_LIFETIME : OauthLifetime.t :=
  {| OauthLifetime.ACCESS_TOKEN := 3600 * 4;
     OauthLifetime.REFRESH_TOKEN := 1209600 |}.

Definition ACTOR_FOLLOW_SCORE : ActorFollowScore.t :=
  {| ActorFollowScore.PENALTY := -10;
     ActorFollowScore.BONUS := 10;
     ActorFollowScore.BASE := 1000;
     ActorFollowScore.MAX := 10000 |}.

Definition FOLLOW_STATES : table :=
  [ ("PENDING", "pending");
    ("ACCEPTED", "accepted") ].

Definition REMOTE_SCHEME : RemoteScheme.t :=
  {| RemoteScheme.HTTP := "https";
     RemoteScheme.WS := "wss" |}.

Definition JOB_STATES : table :=
  [ ("PENDING", "pending");
    ("PROCESSING", "processing");
    ("ERROR", "error");
    ("SUCCESS", "success") ].

Definition JOB_CATEGORIES : table :=
  [ ("TRANSCODING", "transcoding");
    ("ACTIVITYPUB_HTTP", "activitypub-http") ].

Definition JOBS_FETCH_LIMIT_PER_CYCLE : JobsFetchLimit.t :=
  {| JobsFetchLimit.transcoding := 10;
     JobsFetchLimit.httpRequest := 20 |}.

Definition JOBS_FETCHING_INTERVAL : Z := 60000.

Definition SCHEDULER_INTERVAL : Z := 60000 * 60.

Definition CONSTRAINTS_FIELDS : Constraints.t :=
  {| Constraints.USERS :=
       {| Constraints.Users.USERNAME := range 3 20;
          Constraints.Users.PASSWORD := range 6 255;
          Constraints.Users.VIDEO_QUOTA := at_least (-1) |};
     Constraints.VIDEO_ABUSES :=
       {| Constraints.VideoAbuses.REASON := range 2 300 |};
     Constraints.VIDEO_CHANNELS :=
       {| Constraints.VideoChannels.NAME := range 3 120;
          Constraints.VideoChannels.DESCRIPTION := range 3 250;
          Constraints.VideoChannels.URL := range 3 2000 |};
     Constraints.VIDEOS :=
       {| Constraints.Videos.NAME := range 3 120;
          Constraints.Videos.TRUNCATED_DESCRIPTION := range 3 250;
          Constraints.Videos.DESCRIPTION := range 3 3000;
          Constraints.Videos.EXTNAME := [ ".mp4"; ".ogv"; ".webm" ];
          Constraints.Videos.INFO_HASH := range 40 40;
          Constraints.Videos.DURATION := at_least 1;
          Constraints.Videos.TAGS := range 0 5;
          Constraints.Videos.TAG := range 2 30;
          Constraints.Videos.THUMBNAIL := range 2 30;
          Constraints.Videos.THUMBNAIL_DATA := range 0 20000;
          Constraints.Videos.VIEWS := at_least 0;
          Constraints.Videos.LIKES := at_least 0;
          Constraints.Videos.DISLIKES := at_least 0;
          Constraints.Videos.FILE_SIZE := at_least 10;
          Constraints.Videos.URL := range 3 2000 |};
     Constraints.ACTORS :=
       {| Constraints.Actors.PUBLIC_KEY := range 10 5000;
          Constraints.Actors.PRIVATE_KEY := range 10 5000;
          Constraints.Actors.URL := range 3 2000;
          Constraints.Actors.AVATAR :=
            {| Constraints.Avatar.EXTNAME := [ ".png"; ".jpeg"; ".jpg" ];
               Constraints.Avatar.FILE_SIZE := at_most (2 * 1024 * 1024) |} |};
     Constraints.VIDEO_EVENTS :=
       {| Constraints.VideoEvents.COUNT := at_least 0 |};
     Constraints.VIDEO_COMMENTS :=
       {| Constraints.VideoComments.TEXT := range 2 3000;
          Constraints.VideoComments.URL := range 3 2000 |} |}.

Definition VIDEO_RATE_TYPES : table :=
  [ ("LIKE", "like");
    ("DISLIKE", "dislike") ].

Definition VIDEO_CATEGORIES : table :=
  [ ("1", "Music");
    ("2", "Films");
    ("3", "Vehicles");
    ("4", "Art");
    ("5", "Sports");
    ("6", "Travels");
    ("7", "Gaming");
    ("8", "People");
    ("9", "Comedy");
    ("10", "Entertainment");
    ("11", "News");
    ("12", "How To");
    ("13", "Education");
    ("14", "Activism");
    ("15", "Science & Technology");
    ("16", "Animals");
    ("17", "Kids");
    ("18", "Food") ].

Definition VIDEO_LICENCES : table :=
  [ ("1", "Attribution");
    ("2", "Attribution - Share Alike");
    ("3", "Attribution - No Derivatives");
    ("4", "Attribution - Non Commercial");
    ("5", "Attribution - Non Commercial - Share Alike");
    ("6", "Attribution - Non Commercial - No Derivatives");
    ("7", "Public Domain Dedication") ].

Definition VIDEO_LANGUAGES : table :=
  [ ("1", "English");
    ("2", "Spanish");
    ("3", "Mandarin");
    ("4", "Hindi");
    ("5", "Arabic");
    ("6", "Portuguese");
    ("7", "Bengali");
    ("8", "Russian");
    ("9", "Japanese");
    ("10", "Punjabi");
    ("11", "German");
    ("12", "Korean");
    ("13", "French");
    ("14", "Italian") ].

(** The keys are computed from the members of the imported enum. *)
Definition VIDEO_PRIVACIES `{VideoPrivacyEnum} : table :=
  [ (to_string VideoPrivacy_PUBLIC, "Public");
    (to_string VideoPrivacy_UNLISTED, "Unlisted");
    (to_string VideoPrivacy_PRIVATE, "Private") ].

Definition VIDEO_MIMETYPE_EXT : table :=
  [ ("video/webm", ".webm");
    ("video/ogg", ".ogv");
    ("video/mp4", ".mp4") ].

Definition AVATAR_MIMETYPE_EXT : table :=
  [ ("image/png", ".png");
    ("image/jpg", ".jpg");
    ("image/jpeg", ".jpg") ].

Definition SERVER_ACTOR_NAME : string := "peertube".

(** The third header holds the text
    [application/ld+json; profile=...] with the profile URL between double
    quotes; the quote character is spelled by its code. *)
Definition dquote : string := String (Ascii.ascii_of_nat 34) EmptyString.

Definition ACTIVITY_PUB : ActivityPub.t :=
  {| ActivityPub.POTENTIAL_ACCEPT_HEADERS :=
       [ "application/activity+json";
         "application/ld+json";
         "application/ld+json; profile=" +:+ dquote
           +:+ "https://www.w3.org/ns/activitystreams" +:+ dquote ];
     ActivityPub.ACCEPT_HEADER := "application/activity+json, application/ld+json";
     ActivityPub.PUBLIC := "https://www.w3.org/ns/activitystreams#Public";
     ActivityPub.COLLECTION_ITEMS_PER_PAGE := 10;
     ActivityPub.FETCH_PAGE_LIMIT := 100;
     ActivityPub.MAX_HTTP_ATTEMPT := 5;
     ActivityPub.URL_MIME_TYPES :=
       {| UrlMimeTypes.VIDEO := [ "video/mp4"; "video/webm"; "video/ogg" ];
          UrlMimeTypes.TORRENT := [ "application/x-bittorrent" ];
          UrlMimeTypes.MAGNET := [ "application/x-bittorrent;x-scheme-handler/magnet" ] |};
     ActivityPub.MAX_RECURSION_COMMENTS := 100;
     ActivityPub.ACTOR_REFRESH_INTERVAL := 3600 * 24 * 1000 |}.

Definition ACTIVITY_PUB_ACTOR_TYPES : table :=
  [ ("GROUP", "Group");
    ("PERSON", "Person");
    ("APPLICATION", "Application") ].

Definition PRIVATE_RSA_KEY_SIZE : Z := 2048.

Definition BCRYPT_SALT_SIZE : Z := 10.

Definition STATIC_PATHS : StaticPaths.t :=
  {| StaticPaths.PREVIEWS := "/static/previews/";
     StaticPaths.THUMBNAILS := "/static/thumbnails/";
     StaticPaths.TORRENTS := "/static/torrents/";
     StaticPaths.WEBSEED := "/static/webseed/";
     StaticPaths.AVATARS := "/static/avatars/" |}.

Definition STATIC_MAX_AGE : string := "30d".

Definition THUMBNAILS_SIZE : Size.t := {| Size.width := 200; Size.height := 110 |}.
Definition PREVIEWS_SIZE : Size.t := {| Size.width := 560; Size.height := 315 |}.
Definition AVATARS_SIZE : Size.t := {| Size.width := 120; Size.height := 120 |}.
Definition EMBED_SIZE : Size.t := {| Size.width := 560; Size.height := 315 |}.

Definition OPENGRAPH_AND_OEMBED_COMMENT : string := "<!-- open graph and oembed tags -->".

End Initial.

(** ** The module's code *)

Section Constants.

Context `{CoreUtils} `{NodePath} `{VideoPrivacyEnum}.

(** The local variable [filename] of [getLocalConfigFilePath], lines
    417-419. *)
Definition local_filename (p : Runtime) : string :=
  let filename := "local" in
  let filename :=
    match env_truthy p "NODE_ENV" with
    | Some e => filename +:+ "-" +:+ e
    | None => filename
    end in
  let filename :=
    match env_truthy p "NODE_APP_INSTANCE" with
    | Some i => filename +:+ "-" +:+ i
    | None => filename
    end in
  filename.

(** [getLocalConfigFilePath], lines 413-422.  [configSources[0].name] on
    an empty array would be a [TypeError], which the length test excludes. *)
Definition getLocalConfigFilePath (p : Runtime) (config : IConfig) : result string :=
  let configSources := getConfigSources (util config) in
  if decide (length configSources = 0%nat) then Throw (Error "Invalid config source.")
  else
    match configSources !! 0%nat with
    | Some s => Ok (join (dirname (name s)) (local_filename p +:+ ".json"))
    | None => Throw (Error "TypeError")
    end.

(** The [CONFIG] literal, lines 87-142: its data properties are evaluated
    in source order, each [config.get] once, when the literal is evaluated;
    the first call that throws ends the evaluation. *)
Definition CONFIG_literal (p : Runtime) (config : IConfig) : result Config.t :=
  custom_file ← getLocalConfigFilePath p config;
  listen_port ← get config "listen.port";
  database_suffix ← get config "database.suffix";
  database_hostname ← get config "database.hostname";
  database_port ← get config "database.port";
  database_username ← get config "database.username";
  database_password ← get config "database.password";
  storage_avatars ← get config "storage.avatars";
  storage_logs ← get config "storage.logs";
  storage_videos ← get config "storage.videos";
  storage_thumbnails ← get config "storage.thumbnails";
  storage_previews ← get config "storage.previews";
  storage_torrents ← get config "storage.torrents";
  storage_cache ← get config "storage.cache";
  scheme_https ← get config "webserver.https";
  ws_https ← get config "webserver.https";
  webserver_hostname ← get config "webserver.hostname";
  webserver_port ← get config "webserver.port";
  Ok {| Config.CUSTOM_FILE := custom_file;
        Config.LISTEN :=
          {| Listen.PORT := listen_port |};
        Config.DATABASE :=
          {| Database.DBNAME := "peertube" +:+ to_string database_suffix;
             Database.HOSTNAME := database_hostname;
             Database.PORT := database_port;
             Database.USERNAME := database_username;
             Database.PASSWORD := database_password |};
        Config.STORAGE :=
          {| Storage.AVATARS_DIR := buildPath storage_avatars;
             Storage.LOG_DIR := buildPath storage_logs;
             Storage.VIDEOS_DIR := buildPath storage_videos;
             Storage.THUMBNAILS_DIR := buildPath storage_thumbnails;
             Storage.PREVIEWS_DIR := buildPath storage_previews;
             Storage.TORRENTS_DIR := buildPath storage_torrents;
             Storage.CACHE_DIR := buildPath storage_cache |};
        Config.WEBSERVER :=
          {| Webserver.SCHEME :=
               if strict_eq scheme_https (VBool true) then "https" else "http";
             Webserver.WS :=
               if strict_eq ws_https (VBool true) then "wss" else "ws";
             Webserver.HOSTNAME := webserver_hostname;
             Webserver.PORT := webserver_port;
             Webserver.URL := EmptyString;
             Webserver.HOST := EmptyString |} |}.

(** The getters of [CONFIG]: each calls [get] on the module variable
    [config] at the time of the call, and throws when that call throws. *)
Definition CONFIG_ADMIN_EMAIL (m : ModuleState) : result value :=
  get (config m) "admin.email".
Definition CONFIG_SIGNUP_ENABLED (m : ModuleState) : result value :=
  get (config m) "signup.enabled".
Definition CONFIG_SIGNUP_LIMIT (m : ModuleState) : result value :=
  get (config m) "signup.limit".
Definition CONFIG_USER_VIDEO_QUOTA (m : ModuleState) : result value :=
  get (config m) "user.video_quota".
Definition CONFIG_TRANSCODING_ENABLED (m : ModuleState) : result value :=
  get (config m) "transcoding.enabled".
Definition CONFIG_TRANSCODING_THREADS (m : ModuleState) : result value :=
  get (config m) "transcoding.threads".
Definition CONFIG_TRANSCODING_RESOLUTIONS_240p (m : ModuleState) : result value :=
  get (config m) "transcoding.resolutions.240p".
Definition CONFIG_TRANSCODING_RESOLUTIONS_360p (m : ModuleState) : result value :=
  get (config m) "transcoding.resolutions.360p".
Definition CONFIG_TRANSCODING_RESOLUTIONS_480p (m : ModuleState) : result value :=
  get (config m) "transcoding.resolutions.480p".
Definition CONFIG_TRANSCODING_RESOLUTIONS_720p (m : ModuleState) : result value :=
  get (config m) "transcoding.resolutions.720p".
Definition CONFIG_TRANSCODING_RESOLUTIONS_1080p (m : ModuleState) : result value :=
  get (config m) "transcoding.resolutions.1080p".
Definition CONFIG_CACHE_PREVIEWS_SIZE (m : ModuleState) : result value :=
  get (config m) "cache.previews.size".

(** The bindings as they stand when line 355 is reached: every literal
    evaluated, nothing overridden, [URL] and [HOST] still empty. *)
Definition literals (config : IConfig) (CONFIG : Config.t) : ModuleState :=
  {| config := config;
     LAST_MIGRATION_VERSION := Initial.LAST_MIGRATION_VERSION;
     API_VERSION := Initial.API_VERSION;
     PAGINATION_COUNT_DEFAULT := Initial.PAGINATION_COUNT_DEFAULT;
     SORTABLE_COLUMNS := Initial.SORTABLE_COLUMNS;
     OAUTH_LIFETIME := Initial.OAUTH_LIFETIME;
     ACTOR_FOLLOW_SCORE := Initial.ACTOR_FOLLOW_SCORE;
     FOLLOW_STATES := Initial.FOLLOW_STATES;
     REMOTE_SCHEME := Initial.REMOTE_SCHEME;
     JOB_STATES := Initial.JOB_STATES;
     JOB_CATEGORIES := Initial.JOB_CATEGORIES;
     JOBS_FETCH_LIMIT_PER_CYCLE := Initial.JOBS_FETCH_LIMIT_PER_CYCLE;
     JOBS_FETCHING_INTERVAL := Initial.JOBS_FETCHING_INTERVAL;
     SCHEDULER_INTERVAL := Initial.SCHEDULER_INTERVAL;
     CONFIG := CONFIG;
     CONSTRAINTS_FIELDS := Initial.CONSTRAINTS_FIELDS;
     VIDEO_RATE_TYPES := Initial.VIDEO_RATE_TYPES;
     VIDEO_CATEGORIES := Initial.VIDEO_CATEGORIES;
     VIDEO_LICENCES := Initial.VIDEO_LICENCES;
     VIDEO_LANGUAGES := Initial.VIDEO_LANGUAGES;
     VIDEO_PRIVACIES := Initial.VIDEO_PRIVACIES;
     VIDEO_MIMETYPE_EXT := Initial.VIDEO_MIMETYPE_EXT;
     AVATAR_MIMETYPE_EXT := Initial.AVATAR_MIMETYPE_EXT;
     SERVER_ACTOR_NAME := Initial.SERVER_ACTOR_NAME;
     ACTIVITY_PUB := Initial.ACTIVITY_PUB;
     ACTIVITY_PUB_ACTOR_TYPES := Initial.ACTIVITY_PUB_ACTOR_TYPES;
     PRIVATE_RSA_KEY_SIZE := Initial.PRIVATE_RSA_KEY_SIZE;
     BCRYPT_SALT_SIZE := Initial.BCRYPT_SALT_SIZE;
     STATIC_PATHS := Initial.STATIC_PATHS;
     STATIC_MAX_AGE := Initial.STATIC_MAX_AGE;
     THUMBNAILS_SIZE := Initial.THUMBNAILS_SIZE;
     PREVIEWS_SIZE := Initial.PREVIEWS_SIZE;
     AVATARS_SIZE := Initial.AVATARS_SIZE;
     EMBED_SIZE := Initial.EMBED_SIZE;
     CACHE :=
       {| Cache.DIRECTORIES :=
            {| CacheDirectories.PREVIEWS :=
                 join (Storage.CACHE_DIR (Config.STORAGE CONFIG)) "previews" |} |};
     ACCEPT_HEADERS :=
       [ "html"; "application/json" ]
         ++ ActivityPub.POTENTIAL_ACCEPT_HEADERS Initial.ACTIVITY_PUB;
     OPENGRAPH_AND_OEMBED_COMMENT := Initial.OPENGRAPH_AND_OEMBED_COMMENT |}.

(** The body of the test-instance block, lines 357-365. *)
Definition test_overrides (m : ModuleState) : ModuleState :=
  let m := set_ACTOR_FOLLOW_SCORE (ActorFollowScore.set_BASE 20 (ACTOR_FOLLOW_SCORE m)) m in
  let m := set_JOBS_FETCHING_INTERVAL 1000 m in
  let m := set_REMOTE_SCHEME (RemoteScheme.set_HTTP "http" (REMOTE_SCHEME m)) m in
  let m := set_REMOTE_SCHEME (RemoteScheme.set_WS "ws" (REMOTE_SCHEME m)) m in
  let m := set_STATIC_MAX_AGE "0" m in
  let m := set_ACTIVITY_PUB
             (ActivityPub.set_COLLECTION_ITEMS_PER_PAGE 2 (ACTIVITY_PUB m)) m in
  let m := set_ACTIVITY_PUB
             (ActivityPub.set_ACTOR_REFRESH_INTERVAL (10 * 1000) (ACTIVITY_PUB m)) m in
  let m :=
    let fields := CONSTRAINTS_FIELDS m in
    let actors := Constraints.ACTORS fields in
    let avatar := Constraints.Actors.AVATAR actors in
    let file_size := Constraints.Avatar.FILE_SIZE avatar in
    set_CONSTRAINTS_FIELDS
      (Constraints.set_ACTORS
         (Constraints.Actors.set_AVATAR
            (Constraints.Avatar.set_FILE_SIZE
               (Range.set_max (Some (100 * 1024)) file_size) avatar) actors) fields) m in
  let m := set_SCHEDULER_INTERVAL 10000 m in
  m.

(** Lines 356-366: [if (isTestInstance() === true) { ... }]. *)
Definition test_block (m : ModuleState) : ModuleState :=
  if strict_eq isTestInstance (VBool true) then test_overrides m else m.

(** [updateWebserverConfig], lines 424-427. *)
Definition updateWebserverConfig (m : ModuleState) : ModuleState :=
  let m :=
    let w := Config.WEBSERVER (CONFIG m) in
    set_CONFIG
      (Config.set_WEBSERVER
         (Webserver.set_URL
            (sanitizeUrl (Webserver.SCHEME w +:+ "://" +:+ to_string (Webserver.HOSTNAME w)
                          +:+ ":" +:+ to_string (Webserver.PORT w))) w)
         (CONFIG m)) m in
  let m :=
    let w := Config.WEBSERVER (CONFIG m) in
    set_CONFIG
      (Config.set_WEBSERVER
         (Webserver.set_HOST
            (sanitizeHost (to_string (Webserver.HOSTNAME w) +:+ ":" +:+ to_string (Webserver.PORT w))
                          (RemoteScheme.HTTP (REMOTE_SCHEME m))) w)
         (CONFIG m)) m in
  m.

(** Evaluation of the module, lines 11-368: [require('config')], the
    literals, the test-instance block, then [updateWebserverConfig()]. *)
Definition module_init (p : Runtime) : result (ModuleState * Runtime) :=
  let '(config, p) := require_config p in
  match CONFIG_literal p config with
  | Throw e => Throw e
  | Ok CONFIG =>
      let m := literals config CONFIG in
      let m := test_block m in
      let m := updateWebserverConfig m in
      Ok (m, p)
  end.

(** [reloadConfig], lines 429-456. *)
Definition directory (p : Runtime) : string :=
  match env_truthy p "NODE_CONFIG_DIR" with
  | Some d => d
  | None => join root "config"
  end.

Definition purge (p : Runtime) : Runtime :=
  let cache :=
    filter (fun kv : string * cached => indexOf kv.1 (directory p) = -1) (require_cache p) in
  let cache := delete (resolve_config p) cache in
  {| env := env p;
     require_cache := cache;
     resolve_config := resolve_config p;
     load_config := load_config p |}.

Definition reloadConfig (p : Runtime) (m : ModuleState) : ModuleState * Runtime :=
  let p := purge p in
  let '(c, p) := require_config p in
  let m := set_config c m in
  let m := updateWebserverConfig m in
  (m, p).

End Constants.

(** ** The sanitizers of [helpers/core-utils] *)

(** [s] without its suffix [suf], or [s] itself when it does not end
    with [suf]. *)
Fixpoint strip_suffix (suf s : string) : string :=
  if String.eqb s suf then EmptyString
  else
    match s with
    | EmptyString => EmptyString
    | String c s' => String c (strip_suffix suf s')
    end.

(** Modelled from the spec: [sanitizeUrl] of [helpers/core-utils], whose
    source is not part of this module.  The spec has the derived fields
    normalised by "host/URL sanitization (strip default ports, normalize
    trailing slashes)": a trailing slash is dropped, then the default port
    of the URL's scheme, [:443] for https and [:80] for http. *)
Definition sanitizeUrl_spec (url : string) : string :=
  let url := strip_suffix "/" url in
  if String.prefix "https://" url then strip_suffix ":443" url
  else if String.prefix "http://" url then strip_suffix ":80" url
  else url.

(** Modelled from the spec: [sanitizeHost] of [helpers/core-utils], whose
    source is not part of this module.  "Strip default ports": the default
    port of the given remote scheme is dropped from the host. *)
Definition sanitizeHost_spec (host remoteScheme : string) : string :=
  if String.eqb remoteScheme "https" then strip_suffix ":443" host
  else if String.eqb remoteScheme "http" then strip_suffix ":80" host
  else host.

(** ** A concrete process, to run the module on

    The statements below hold for every implementation of the imported
    helpers.  To evaluate the module on concrete inputs, the sanitizers are
    the ones above, [buildPath] returns the configured path as it is (as for
    an absolute path), and [path] works on slash-separated names. *)

Definition core_utils (test : bool) : CoreUtils :=
  {| buildPath := to_string;
     isTestInstance := VBool test;
     root := "/srv/peertube";
     sanitizeHost := sanitizeHost_spec;
     sanitizeUrl := sanitizeUrl_spec |}.

Fixpoint dirname_slash (s : string) : string :=
  match s with
  | EmptyString => EmptyString
  | String c s' =>
      if decide (indexOf s' "/" = -1) then EmptyString
      else String c (dirname_slash s')
  end.

Definition node_path : NodePath :=
  {| dirname := dirname_slash;
     join := fun a b => a +:+ "/" +:+ b |}.

Definition video_privacy : VideoPrivacyEnum :=
  {| VideoPrivacy_PUBLIC := VNum 1;
     VideoPrivacy_UNLISTED := VNum 2;
     VideoPrivacy_PRIVATE := VNum 3 |}.

(** The exception of the library for a key that is not defined. *)
Definition not_defined (k : string) : error :=
  Error ("Configuration property " +:+ Initial.dquote +:+ k +:+ Initial.dquote
         +:+ " is not defined").

Fixpoint setting (settings : list (string * value)) (k : string) : result value :=
  match settings with
  | [] => Throw (not_defined k)
  | (k', v) :: rest => if decide (k' = k) then Ok v else setting rest k
  end.

Definition config_of (settings : list (string * value)) (sources : list string) : IConfig :=
  {| get := setting settings;
     util := {| getConfigSources := (fun n => {| name := n |}) <$> sources |} |}.

Definition process_of (vars : list (string * string)) (c : IConfig) : Runtime :=
  {| env := list_to_map vars;
     require_cache := ∅;
     resolve_config := "/srv/peertube/node_modules/config/lib/config.js";
     load_config := c |}.

Definition settings_a : list (string * value) :=
  [ ("listen.port", VNum 9000);
    ("database.suffix", VStr "_prod");
    ("database.hostname", VStr "localhost");
    ("database.port", VNum 5432);
    ("database.username", VStr "peertube");
    ("database.password", VStr "peertube");
    ("storage.avatars", VStr "/var/www/peertube/avatars");
    ("storage.logs", VStr "/var/www/peertube/logs");
    ("storage.videos", VStr "/var/www/peertube/videos");
    ("storage.thumbnails", VStr "/var/www/peertube/thumbnails");
    ("storage.previews", VStr "/var/www/peertube/previews");
    ("storage.torrents", VStr "/var/www/peertube/torrents");
    ("storage.cache", VStr "/var/www/peertube/cache");
    ("webserver.https", VBool false);
    ("webserver.hostname", VStr "example.com");
    ("webserver.port", VNum 80);
    ("admin.email", VStr "admin@example.com");
    ("signup.enabled", VBool false);
    ("signup.limit", VNum 10);
    ("user.video_quota", VNum (-1));
    ("transcoding.enabled", VBool false);
    ("transcoding.threads", VNum 2);
    ("cache.previews.size", VNum 100) ].

(** The same files after an administrator has edited two settings. *)
Definition settings_b : list (string * value) :=
  ("listen.port", VNum 9001) :: ("admin.email", VStr "root@example.com") :: settings_a.

Definition sources_a : list string := [ "/etc/peertube/default.yaml" ].

Definition process_a : Runtime :=
  process_of [ ("NODE_ENV", "production") ] (config_of settings_a sources_a).

(** The state of the module once evaluated, when it does not throw. *)
Definition initialised `{CoreUtils} `{NodePath} `{VideoPrivacyEnum}
    (p : Runtime) : option ModuleState :=
  match module_init p with
  | Ok (m, _) => Some m
  | Throw _ => None
  end.


(** ** Vocabulary of the statements *)

(** The nine values assigned by the test-instance block. *)
Definition test_values (m : ModuleState) : Prop :=
  ActorFollowScore.BASE (ACTOR_FOLLOW_SCORE m) = 20
  ∧ JOBS_FETCHING_INTERVAL m = 1000
  ∧ RemoteScheme.HTTP (REMOTE_SCHEME m) = "http"
  ∧ RemoteScheme.WS (REMOTE_SCHEME m) = "ws"
  ∧ STATIC_MAX_AGE m = "0"
  ∧ ActivityPub.COLLECTION_ITEMS_PER_PAGE (ACTIVITY_PUB m) = 2
  ∧ ActivityPub.ACTOR_REFRESH_INTERVAL (ACTIVITY_PUB m) = 10000
  ∧ Range.max (Constraints.Avatar.FILE_SIZE
                 (Constraints.Actors.AVATAR (Constraints.ACTORS (CONSTRAINTS_FIELDS m))))
    = Some 102400
  ∧ SCHEDULER_INTERVAL m = 10000.

(** The values of the same nine places in the literals. *)
Definition production_values (m : ModuleState) : Prop :=
  ActorFollowScore.BASE (ACTOR_FOLLOW_SCORE m) = 1000
  ∧ JOBS_FETCHING_INTERVAL m = 60000
  ∧ RemoteScheme.HTTP (REMOTE_SCHEME m) = "https"
  ∧ RemoteScheme.WS (REMOTE_SCHEME m) = "wss"
  ∧ STATIC_MAX_AGE m = "30d"
  ∧ ActivityPub.COLLECTION_ITEMS_PER_PAGE (ACTIVITY_PUB m) = 10
  ∧ ActivityPub.ACTOR_REFRESH_INTERVAL (ACTIVITY_PUB m) = 86400000
  ∧ Range.max (Constraints.Avatar.FILE_SIZE
                 (Constraints.Actors.AVATAR (Constraints.ACTORS (CONSTRAINTS_FIELDS m))))
    = Some 2097152
  ∧ SCHEDULER_INTERVAL m = 3600000.

(** The nine places the block assigns to. *)
Definition overridden_places (m : ModuleState)
    : Z * Z * string * string * string * Z * Z * option Z * Z :=
  (ActorFollowScore.BASE (ACTOR_FOLLOW_SCORE m),
   JOBS_FETCHING_INTERVAL m,
   RemoteScheme.HTTP (REMOTE_SCHEME m),
   RemoteScheme.WS (REMOTE_SCHEME m),
   STATIC_MAX_AGE m,
   ActivityPub.COLLECTION_ITEMS_PER_PAGE (ACTIVITY_PUB m),
   ActivityPub.ACTOR_REFRESH_INTERVAL (ACTIVITY_PUB m),
   Range.max (Constraints.Avatar.FILE_SIZE
                (Constraints.Actors.AVATAR (Constraints.ACTORS (CONSTRAINTS_FIELDS m)))),
   SCHEDULER_INTERVAL m).

(** Every binding and property of the module other than those nine has the
    same value in [m'] as in [m].  The getters of [CONFIG] read [config]. *)
Definition same_elsewhere (m m' : ModuleState) : Prop :=
  config m' = config m
  ∧ LAST_MIGRATION_VERSION m' = LAST_MIGRATION_VERSION m
  ∧ API_VERSION m' = API_VERSION m
  ∧ PAGINATION_COUNT_DEFAULT m' = PAGINATION_COUNT_DEFAULT m
  ∧ SORTABLE_COLUMNS m' = SORTABLE_COLUMNS m
  ∧ OAUTH_LIFETIME m' = OAUTH_LIFETIME m
  ∧ ActorFollowScore.PENALTY (ACTOR_FOLLOW_SCORE m') = ActorFollowScore.PENALTY (ACTOR_FOLLOW_SCORE m)
  ∧ ActorFollowScore.BONUS (ACTOR_FOLLOW_SCORE m') = ActorFollowScore.BONUS (ACTOR_FOLLOW_SCORE m)
  ∧ ActorFollowScore.MAX (ACTOR_FOLLOW_SCORE m') = ActorFollowScore.MAX (ACTOR_FOLLOW_SCORE m)
  ∧ FOLLOW_STATES m' = FOLLOW_STATES m
  ∧ JOB_STATES m' = JOB_STATES m
  ∧ JOB_CATEGORIES m' = JOB_CATEGORIES m
  ∧ JOBS_FETCH_LIMIT_PER_CYCLE m' = JOBS_FETCH_LIMIT_PER_CYCLE m
  ∧ CONFIG m' = CONFIG m
  ∧ Constraints.USERS (CONSTRAINTS_FIELDS m') = Constraints.USERS (CONSTRAINTS_FIELDS m)
  ∧ Constraints.VIDEO_ABUSES (CONSTRAINTS_FIELDS m') = Constraints.VIDEO_ABUSES (CONSTRAINTS_FIELDS m)
  ∧ Constraints.VIDEO_CHANNELS (CONSTRAINTS_FIELDS m')
    = Constraints.VIDEO_CHANNELS (CONSTRAINTS_FIELDS m)
  ∧ Constraints.VIDEOS (CONSTRAINTS_FIELDS m') = Constraints.VIDEOS (CONSTRAINTS_FIELDS m)
  ∧ Constraints.Actors.PUBLIC_KEY (Constraints.ACTORS (CONSTRAINTS_FIELDS m'))
    = Constraints.Actors.PUBLIC_KEY (Constraints.ACTORS (CONSTRAINTS_FIELDS m))
  ∧ Constraints.Actors.PRIVATE_KEY (Constraints.ACTORS (CONSTRAINTS_FIELDS m'))
    = Constraints.Actors.PRIVATE_KEY (Constraints.ACTORS (CONSTRAINTS_FIELDS m))
  ∧ Constraints.Actors.URL (Constraints.ACTORS (CONSTRAINTS_FIELDS m'))
    = Constraints.Actors.URL (Constraints.ACTORS (CONSTRAINTS_FIELDS m))
  ∧ Constraints.Avatar.EXTNAME
      (Constraints.Actors.AVATAR (Constraints.ACTORS (CONSTRAINTS_FIELDS m')))
    = Constraints.Avatar.EXTNAME
        (Constraints.Actors.AVATAR (Constraints.ACTORS (CONSTRAINTS_FIELDS m)))
  ∧ Range.min (Constraints.Avatar.FILE_SIZE
                 (Constraints.Actors.AVATAR (Constraints.ACTORS (CONSTRAINTS_FIELDS m'))))
    = Range.min (Constraints.Avatar.FILE_SIZE
                   (Constraints.Actors.AVATAR (Constraints.ACTORS (CONSTRAINTS_FIELDS m))))
  ∧ Constraints.VIDEO_EVENTS (CONSTRAINTS_FIELDS m') = Constraints.VIDEO_EVENTS (CONSTRAINTS_FIELDS m)
  ∧ Constraints.VIDEO_COMMENTS (CONSTRAINTS_FIELDS m')
    = Constraints.VIDEO_COMMENTS (CONSTRAINTS_FIELDS m)
  ∧ VIDEO_RATE_TYPES m' = VIDEO_RATE_TYPES m
  ∧ VIDEO_CATEGORIES m' = VIDEO_CATEGORIES m
  ∧ VIDEO_LICENCES m' = VIDEO_LICENCES m
  ∧ VIDEO_LANGUAGES m' = VIDEO_LANGUAGES m
  ∧ VIDEO_PRIVACIES m' = VIDEO_PRIVACIES m
  ∧ VIDEO_MIMETYPE_EXT m' = VIDEO_MIMETYPE_EXT m
  ∧ AVATAR_MIMETYPE_EXT m' = AVATAR_MIMETYPE_EXT m
  ∧ SERVER_ACTOR_NAME m' = SERVER_ACTOR_NAME m
  ∧ ActivityPub.POTENTIAL_ACCEPT_HEADERS (ACTIVITY_PUB m')
    = ActivityPub.POTENTIAL_ACCEPT_HEADERS (ACTIVITY_PUB m)
  ∧ ActivityPub.ACCEPT_HEADER (ACTIVITY_PUB m') = ActivityPub.ACCEPT_HEADER (ACTIVITY_PUB m)
  ∧ ActivityPub.PUBLIC (ACTIVITY_PUB m') = ActivityPub.PUBLIC (ACTIVITY_PUB m)
  ∧ ActivityPub.FETCH_PAGE_LIMIT (ACTIVITY_PUB m') = ActivityPub.FETCH_PAGE_LIMIT (ACTIVITY_PUB m)
  ∧ ActivityPub.MAX_HTTP_ATTEMPT (ACTIVITY_PUB m') = ActivityPub.MAX_HTTP_ATTEMPT (ACTIVITY_PUB m)
  ∧ ActivityPub.URL_MIME_TYPES (ACTIVITY_PUB m') = ActivityPub.URL_MIME_TYPES (ACTIVITY_PUB m)
  ∧ ActivityPub.MAX_RECURSION_COMMENTS (ACTIVITY_PUB m')
    = ActivityPub.MAX_RECURSION_COMMENTS (ACTIVITY_PUB m)
  ∧ ACTIVITY_PUB_ACTOR_TYPES m' = ACTIVITY_PUB_ACTOR_TYPES m
  ∧ PRIVATE_RSA_KEY_SIZE m' = PRIVATE_RSA_KEY_SIZE m
  ∧ BCRYPT_SALT_SIZE m' = BCRYPT_SALT_SIZE m
  ∧ STATIC_PATHS m' = STATIC_PATHS m
  ∧ THUMBNAILS_SIZE m' = THUMBNAILS_SIZE m
  ∧ PREVIEWS_SIZE m' = PREVIEWS_SIZE m
  ∧ AVATARS_SIZE m' = AVATARS_SIZE m
  ∧ EMBED_SIZE m' = EMBED_SIZE m
  ∧ CACHE m' = CACHE m
  ∧ ACCEPT_HEADERS m' = ACCEPT_HEADERS m
  ∧ OPENGRAPH_AND_OEMBED_COMMENT m' = OPENGRAPH_AND_OEMBED_COMMENT m.

(** The enumeration tables of the module. *)
Definition enumeration_tables (m : ModuleState) : list table :=
  [ VIDEO_CATEGORIES m; VIDEO_LICENCES m; VIDEO_LANGUAGES m; VIDEO_PRIVACIES m;
    VIDEO_RATE_TYPES m; VIDEO_MIMETYPE_EXT m; AVATAR_MIMETYPE_EXT m;
    JOB_STATES m; JOB_CATEGORIES m; FOLLOW_STATES m; ACTIVITY_PUB_ACTOR_TYPES m ].

(** The same tables as the literals of the source define them. *)
Definition literal_tables `{VideoPrivacyEnum} : list table :=
  [ Initial.VIDEO_CATEGORIES; Initial.VIDEO_LICENCES; Initial.VIDEO_LANGUAGES;
    Initial.VIDEO_PRIVACIES; Initial.VIDEO_RATE_TYPES; Initial.VIDEO_MIMETYPE_EXT;
    Initial.AVATAR_MIMETYPE_EXT; Initial.JOB_STATES; Initial.JOB_CATEGORIES;
    Initial.FOLLOW_STATES; Initial.ACTIVITY_PUB_ACTOR_TYPES ].

(** One call of the exported operation [reloadConfig], in whatever state the
    process is by then. *)
Definition reload_step `{CoreUtils} `{NodePath} (m m' : ModuleState) : Prop :=
  ∃ p : Runtime, m' = (reloadConfig p m).1.

(** The data properties of [CONFIG] that [updateWebserverConfig] does not
    assign. *)
Definition loaded_fields (C : Config.t)
    : string * Listen.t * Database.t * Storage.t * (string * string * value * value) :=
  (Config.CUSTOM_FILE C, Config.LISTEN C, Config.DATABASE C, Config.STORAGE C,
   (Webserver.SCHEME (Config.WEBSERVER C), Webserver.WS (Config.WEBSERVER C),
    Webserver.HOSTNAME (Config.WEBSERVER C), Webserver.PORT (Config.WEBSERVER C))).

(** What the getters of [CONFIG] return or throw, in source order. *)
Definition getters (m : ModuleState) : list (result value) :=
  [ CONFIG_ADMIN_EMAIL m;
    CONFIG_SIGNUP_ENABLED m;
    CONFIG_SIGNUP_LIMIT m;
    CONFIG_USER_VIDEO_QUOTA m;
    CONFIG_TRANSCODING_ENABLED m;
    CONFIG_TRANSCODING_THREADS m;
    CONFIG_TRANSCODING_RESOLUTIONS_240p m;
    CONFIG_TRANSCODING_RESOLUTIONS_360p m;
    CONFIG_TRANSCODING_RESOLUTIONS_480p m;
    CONFIG_TRANSCODING_RESOLUTIONS_720p m;
    CONFIG_TRANSCODING_RESOLUTIONS_1080p m;
    CONFIG_CACHE_PREVIEWS_SIZE m ].

(** The setting each getter reads, in the same order. *)
Definition getter_settings : list string :=
  [ "admin.email";
    "signup.enabled";
    "signup.limit";
    "user.video_quota";
    "transcoding.enabled";
    "transcoding.threads";
    "transcoding.resolutions.240p";
    "transcoding.resolutions.360p";
    "transcoding.resolutions.480p";
    "transcoding.resolutions.720p";
    "transcoding.resolutions.1080p";
    "cache.previews.size" ].

(** The name of the local file with a suffix for each of the two variables
    that is defined, as a function of [process.env]. *)
Definition dash_suffix (o : option string) : string :=
  match o with
  | Some s => "-" +:+ s
  | None => EmptyString
  end.

Definition non_empty (o : option string) : option string :=
  match o with
  | Some s => if decide (s = EmptyString) then None else Some s
  | None => None
  end.

(** The process at a later time: same environment and module cache, the
    configuration files now holding [c]. *)
Definition with_files (c : IConfig) (p : Runtime) : Runtime :=
  {| env := env p;
     require_cache := require_cache p;
     resolve_config := resolve_config p;
     load_config := c |}.

(** The file name in the words of the specification: ['local'], then a
    suffix for each of the two variables that is set. *)
Definition filename_when_set (vars : gmap string string) : string :=
  "local" +:+ dash_suffix (vars !! "NODE_ENV")
    +:+ dash_suffix (vars !! "NODE_APP_INSTANCE").

(** Two more processes on the files of [process_a]: a test run, and a run
    with [NODE_ENV] set to the empty string. *)
Definition process_t : Runtime :=
  process_of [ ("NODE_ENV", "test"); ("NODE_APP_INSTANCE", "1") ]
             (config_of settings_a sources_a).

Definition process_e : Runtime :=
  process_of [ ("NODE_ENV", EmptyString) ] (config_of settings_a sources_a).

(** The settings the [CONFIG] literal reads while the module is evaluated,
    in source order. *)
Definition literal_settings : list string :=
  [ "listen.port";
    "database.suffix";
    "database.hostname";
    "database.port";
    "database.username";
    "database.password";
    "storage.avatars";
    "storage.logs";
    "storage.videos";
    "storage.thumbnails";
    "storage.previews";
    "storage.torrents";
    "storage.cache";
    "webserver.https";
    "webserver.hostname";
    "webserver.port" ].

(** A computation ends normally, or by an exception. *)
Definition returns {A : Type} (r : result A) : Prop := ∃ a, r = Ok a.
Definition throws {A : Type} (r : result A) : Prop := ∃ e, r = Throw e.

(** A process on the files of [process_a] with the setting [listen.port]
    left out. *)
Definition process_m : Runtime :=
  process_of [ ("NODE_ENV", "production") ] (config_of (tail settings_a) sources_a).

(** [m] with [CONFIG.WEBSERVER.HOST] set to [h]. *)
Definition with_HOST (h : string) (m : ModuleState) : ModuleState :=
  set_CONFIG
    (Config.set_WEBSERVER (Webserver.set_HOST h (Config.WEBSERVER (CONFIG m))) (CONFIG m)) m.

(** The text [hostname:port] that [updateWebserverConfig] sanitizes. *)
Definition host_and_port (m : ModuleState) : string :=
  to_string (Webserver.HOSTNAME (Config.WEBSERVER (CONFIG m)))
    +:+ ":" +:+ to_string (Webserver.PORT (Config.WEBSERVER (CONFIG m))).

(** A scheme and its websocket scheme go together: both secure, or both
    plain. *)
Definition paired (http ws : string) : Prop :=
  (http = "https" ∧ ws = "wss") ∨ (http = "http" ∧ ws = "ws").

(** More processes on the files of [process_a]: one where the library
    reports no source, and two whose environments spell [staging-2] in two
    ways. *)
Definition process_n : Runtime :=
  process_of [ ("NODE_ENV", "production") ] (config_of settings_a []).

Definition process_s : Runtime :=
  process_of [ ("NODE_ENV", "staging-2") ] (config_of settings_a sources_a).

Definition process_s2 : Runtime :=
  process_of [ ("NODE_ENV", "staging"); ("NODE_APP_INSTANCE", "2") ]
             (config_of settings_a sources_a).

(** A process that has already loaded a module of the configuration
    directory, the [config] library with an older configuration, and a
    module from elsewhere. *)
Definition process_c : Runtime :=
  {| env := {[ "NODE_CONFIG_DIR" := "/etc/peertube" ]};
     require_cache :=
       {[ "/etc/peertube/default.js" := CachedOther;
          "/srv/peertube/node_modules/config/lib/config.js"
            := CachedConfig (config_of settings_a sources_a);
          "/srv/peertube/dist/server.js" := CachedOther ]};
     resolve_config := "/srv/peertube/node_modules/config/lib/config.js";
     load_config := config_of settings_b sources_a |}.
(** * Properties *)

Section Properties.

Context `{CoreUtils} `{NodePath} `{VideoPrivacyEnum}.

(** ** Basic facts about the runtime and module evaluation *)


Lemma strict_eq_false (a b : value) : strict_eq a b = false ↔ a ≠ b.
Proof. unfold strict_eq. apply bool_decide_eq_false. Qed.

Lemma require_config_env (p : Runtime) : env (require_config p).2 = env p.
Proof.
  unfold require_config.
  destruct (require_cache p !! resolve_config p) as [[c|]|]; reflexivity.
Qed.

Lemma env_truthy_ext (p q : Runtime) (x : string) :
  env p = env q → env_truthy p x = env_truthy q x.
Proof. unfold env_truthy. intros ->. reflexivity. Qed.

Lemma local_filename_ext (p q : Runtime) :
  env p = env q → local_filename p = local_filename q.
Proof.
  intros E. unfold local_filename.
  rewrite (env_truthy_ext p q "NODE_ENV" E).
  rewrite (env_truthy_ext p q "NODE_APP_INSTANCE" E). reflexivity.
Qed.

(** [getLocalConfigFilePath] by cases on the reported sources. *)
Lemma getLocalConfigFilePath_nil (p : Runtime) (c : IConfig) :
  getConfigSources (util c) = [] →
  getLocalConfigFilePath p c = Throw (Error "Invalid config source.").
Proof. intros E. unfold getLocalConfigFilePath. rewrite E. reflexivity. Qed.

Lemma getLocalConfigFilePath_cons (p : Runtime) (c : IConfig) s rest :
  getConfigSources (util c) = s :: rest →
  getLocalConfigFilePath p c
  = Ok (join (dirname (name s)) (local_filename p +:+ ".json")).
Proof. intros E. unfold getLocalConfigFilePath. rewrite E. reflexivity. Qed.

(** What [module_init] returns when it returns. *)
Lemma module_init_Ok (p : Runtime) (m : ModuleState) (p' : Runtime) :
  module_init p = Ok (m, p') →
  ∃ C, CONFIG_literal (require_config p).2 (require_config p).1 = Ok C
       ∧ m = updateWebserverConfig (test_block (literals (require_config p).1 C))
       ∧ p' = (require_config p).2.
Proof.
  unfold module_init. destruct (require_config p) as [c q]. simpl.
  destruct (CONFIG_literal q c) as [C|e]; [|discriminate].
  intros [= <- <-]. exists C. auto.
Qed.

Lemma CONFIG_literal_Ok (p : Runtime) (c : IConfig) (C : Config.t) :
  CONFIG_literal p c = Ok C →
  ∃ s rest https, getConfigSources (util c) = s :: rest
    ∧ Config.CUSTOM_FILE C = join (dirname (name s)) (local_filename p +:+ ".json")
    ∧ get c "listen.port" = Ok (Listen.PORT (Config.LISTEN C))
    ∧ get c "webserver.https" = Ok https
    ∧ Webserver.SCHEME (Config.WEBSERVER C)
      = (if strict_eq https (VBool true) then "https" else "http")
    ∧ Webserver.WS (Config.WEBSERVER C)
      = (if strict_eq https (VBool true) then "wss" else "ws")
    ∧ get c "webserver.hostname" = Ok (Webserver.HOSTNAME (Config.WEBSERVER C))
    ∧ get c "webserver.port" = Ok (Webserver.PORT (Config.WEBSERVER C)).
Proof.
  unfold CONFIG_literal.
  destruct (getConfigSources (util c)) as [|s rest] eqn:E.
  - rewrite (getLocalConfigFilePath_nil p c E). discriminate.
  - rewrite (getLocalConfigFilePath_cons p c s rest E). cbn [mbind result_bind].
    repeat (match goal with
            | |- context [get c ?k] => destruct (get c k) eqn:?; [|discriminate]
            end; cbn [mbind result_bind]).
    intros [= <-]. exists s, rest. eexists. simpl. auto 10.
Qed.

(** The literal is evaluated to its end exactly when a source is reported
    and [get] returns for each setting it reads. *)
Lemma CONFIG_literal_returns (p : Runtime) (c : IConfig) :
  returns (CONFIG_literal p c)
  ↔ getConfigSources (util c) ≠ [] ∧ Forall (fun k => returns (get c k)) literal_settings.
Proof.
  unfold CONFIG_literal, literal_settings, returns.
  destruct (getConfigSources (util c)) as [|s rest] eqn:E.
  - rewrite (getLocalConfigFilePath_nil p c E). split.
    + intros [C HC]. discriminate.
    + intros [N _]. contradiction.
  - rewrite (getLocalConfigFilePath_cons p c s rest E). cbn [mbind result_bind].
    split.
    + intros [C HC]. split; [discriminate|].
      repeat (match type of HC with
              | context [get c ?k] => destruct (get c k) eqn:?; [|discriminate]
              end; cbn [mbind result_bind] in HC).
      repeat (apply Forall_cons; split; [cbv beta; eexists; eassumption|]).
      constructor.
    + intros [_ F].
      repeat (apply Forall_cons in F as [[? ->] F]; cbn [mbind result_bind]).
      eauto.
Qed.

(** The operations after the literals never assign [config] nor the data
    properties of [CONFIG] other than [URL] and [HOST]. *)
Lemma test_block_config (m : ModuleState) :
  config (test_block m) = config m ∧ CONFIG (test_block m) = CONFIG m.
Proof. unfold test_block. destruct (strict_eq _ _); split; reflexivity. Qed.

Lemma updateWebserverConfig_config (m : ModuleState) :
  config (updateWebserverConfig m) = config m.
Proof. reflexivity. Qed.

Lemma updateWebserverConfig_data (m : ModuleState) :
  let C := CONFIG m in
  let C' := CONFIG (updateWebserverConfig m) in
  Config.CUSTOM_FILE C' = Config.CUSTOM_FILE C
  ∧ Config.LISTEN C' = Config.LISTEN C
  ∧ Config.DATABASE C' = Config.DATABASE C
  ∧ Config.STORAGE C' = Config.STORAGE C
  ∧ Webserver.SCHEME (Config.WEBSERVER C') = Webserver.SCHEME (Config.WEBSERVER C)
  ∧ Webserver.WS (Config.WEBSERVER C') = Webserver.WS (Config.WEBSERVER C)
  ∧ Webserver.HOSTNAME (Config.WEBSERVER C') = Webserver.HOSTNAME (Config.WEBSERVER C)
  ∧ Webserver.PORT (Config.WEBSERVER C') = Webserver.PORT (Config.WEBSERVER C).
Proof. simpl. auto 10. Qed.

(** The derived fields after [updateWebserverConfig]. *)
Lemma updateWebserverConfig_URL (m : ModuleState) :
  let w := Config.WEBSERVER (CONFIG m) in
  Webserver.URL (Config.WEBSERVER (CONFIG (updateWebserverConfig m)))
  = sanitizeUrl (Webserver.SCHEME w +:+ "://" +:+ to_string (Webserver.HOSTNAME w)
                 +:+ ":" +:+ to_string (Webserver.PORT w)).
Proof. reflexivity. Qed.

Lemma updateWebserverConfig_HOST (m : ModuleState) :
  let w := Config.WEBSERVER (CONFIG m) in
  Webserver.HOST (Config.WEBSERVER (CONFIG (updateWebserverConfig m)))
  = sanitizeHost (to_string (Webserver.HOSTNAME w) +:+ ":" +:+ to_string (Webserver.PORT w))
                 (RemoteScheme.HTTP (REMOTE_SCHEME m)).
Proof. reflexivity. Qed.

(** After [purge], [require('config')] finds nothing cached and evaluates
    the library anew. *)
Lemma purge_forgets_config (p : Runtime) :
  require_cache (purge p) !! resolve_config (purge p) = None.
Proof. unfold purge. simpl. apply lookup_delete_eq. Qed.

Lemma require_config_after_purge (p : Runtime) :
  (require_config (purge p)).1 = load_config p.
Proof.
  unfold require_config. rewrite purge_forgets_config. reflexivity.
Qed.

Lemma reloadConfig_unfold (p : Runtime) (m : ModuleState) :
  (reloadConfig p m).1 = updateWebserverConfig (set_config (load_config p) m).
Proof.
  unfold reloadConfig.
  pose proof (require_config_after_purge p) as E.
  destruct (require_config (purge p)) as [c q]. simpl in E. subst c. reflexivity.
Qed.


(** ** Module evaluation *)

(** The state after the three steps of evaluation, whichever way the
    test-instance block goes: [config] and the loaded data are those of the
    literals. *)
Lemma evaluated_config (c : IConfig) (C : Config.t) :
  config (updateWebserverConfig (test_block (literals c C))) = c.
Proof. unfold test_block. destruct (strict_eq _ _); reflexivity. Qed.

Lemma evaluated_webserver (c : IConfig) (C : Config.t) :
  Webserver.SCHEME (Config.WEBSERVER (CONFIG (updateWebserverConfig (test_block (literals c C)))))
  = Webserver.SCHEME (Config.WEBSERVER C)
  ∧ Webserver.WS (Config.WEBSERVER (CONFIG (updateWebserverConfig (test_block (literals c C)))))
    = Webserver.WS (Config.WEBSERVER C).
Proof. unfold test_block. destruct (strict_eq _ _); split; reflexivity. Qed.

Lemma evaluated_CUSTOM_FILE (c : IConfig) (C : Config.t) :
  Config.CUSTOM_FILE (CONFIG (updateWebserverConfig (test_block (literals c C))))
  = Config.CUSTOM_FILE C.
Proof. unfold test_block. destruct (strict_eq _ _); reflexivity. Qed.

Lemma test_block_active (m : ModuleState) :
  isTestInstance = VBool true → test_block m = test_overrides m.
Proof. intros E. unfold test_block. rewrite E. reflexivity. Qed.

Lemma test_block_inactive (m : ModuleState) :
  isTestInstance ≠ VBool true → test_block m = m.
Proof.
  intros E. unfold test_block.
  apply strict_eq_false in E. rewrite E. reflexivity.
Qed.

Lemma literals_production_values (c : IConfig) (C : Config.t) :
  production_values (literals c C).
Proof. repeat split. Qed.

Lemma throws_or_returns {A : Type} (r : result A) : throws r ↔ ¬ returns r.
Proof.
  unfold throws, returns. destruct r as [a|e]; split.
  - intros [e' E]. discriminate.
  - intros N. exfalso. apply N. eauto.
  - intros _ [a E]. discriminate.
  - intros _. eauto.
Qed.

Lemma Exists_throws (c : IConfig) (l : list string) :
  Exists (fun k => throws (get c k)) l ↔ ¬ Forall (fun k => returns (get c k)) l.
Proof.
  induction l as [|k l IH].
  - split; [intros E; inversion E | intros N; exfalso; apply N; constructor].
  - rewrite Exists_cons, Forall_cons, IH, throws_or_returns.
    destruct (get c k) as [a|e].
    + assert (returns (Ok a)) by (exists a; reflexivity). tauto.
    + assert (¬ returns (@Throw value e)) by (intros [a E]; discriminate). tauto.
Qed.

Lemma module_init_returns (p : Runtime) :
  returns (module_init p)
  ↔ returns (CONFIG_literal (require_config p).2 (require_config p).1).
Proof.
  unfold module_init, returns. destruct (require_config p) as [c q]. simpl.
  destruct (CONFIG_literal q c) as [C|e]; split; eauto.
  - intros [a E]. discriminate.
  - intros [a E]. discriminate.
Qed.

(** C4 (amended). Once [require('config')] has returned, and the imported
    helpers being functions that return, evaluating the module throws
    exactly when the configuration library reports no source or
    [config.get] throws for one of the settings the [CONFIG] literal reads.
    With no source the exception is ['Invalid config source.'], whatever
    the settings are; with at least one source [getLocalConfigFilePath]
    returns a path, and evaluation runs to its end when [config.get]
    returns for each setting read. *)
Theorem module_init_throws_iff (p : Runtime) :
  (throws (module_init p)
   ↔ getConfigSources (util (require_config p).1) = []
     ∨ Exists (fun k => throws (get (require_config p).1 k)) literal_settings)
  ∧ (getConfigSources (util (require_config p).1) = [] →
     module_init p = Throw (Error "Invalid config source."))
  ∧ (getConfigSources (util (require_config p).1) ≠ [] →
     returns (getLocalConfigFilePath (require_config p).2 (require_config p).1))
  ∧ (getConfigSources (util (require_config p).1) ≠ [] →
     Forall (fun k => returns (get (require_config p).1 k)) literal_settings →
     returns (module_init p)).
Proof.
  split; [|split; [|split]].
  - rewrite throws_or_returns, module_init_returns, CONFIG_literal_returns, Exists_throws.
    destruct (getConfigSources (util (require_config p).1)) as [|s rest].
    + split; [auto | intros _ [N _]; contradiction].
    + split.
      * intros N. right. intros F. apply N. split; [discriminate | exact F].
      * intros [E|N] [_ F]; [discriminate | contradiction].
  - intros E. unfold module_init, CONFIG_literal.
    destruct (require_config p) as [c q]. simpl in *.
    rewrite (getLocalConfigFilePath_nil q c E). reflexivity.
  - destruct (getConfigSources (util (require_config p).1)) as [|s rest] eqn:E.
    + intros N. contradiction.
    + intros _. rewrite (getLocalConfigFilePath_cons _ _ s rest E).
      eexists. reflexivity.
  - intros N F. apply module_init_returns, CONFIG_literal_returns. auto.
Qed.

(** C5. Once the module is evaluated, [ACTOR_FOLLOW_SCORE.BASE] is 20 on a
    test instance and 1000 otherwise. *)
Theorem ACTOR_FOLLOW_SCORE_BASE_value (p : Runtime) (m : ModuleState) (p' : Runtime) :
  module_init p = Ok (m, p') →
  (isTestInstance = VBool true → ActorFollowScore.BASE (ACTOR_FOLLOW_SCORE m) = 20)
  ∧ (isTestInstance ≠ VBool true → ActorFollowScore.BASE (ACTOR_FOLLOW_SCORE m) = 1000).
Proof.
  intros Hinit. apply module_init_Ok in Hinit as (C & _ & -> & _).
  split; intros T.
  - rewrite (test_block_active _ T). reflexivity.
  - rewrite (test_block_inactive _ T). reflexivity.
Qed.

(** [same_elsewhere] leaves nothing out: two states that agree on the nine
    places and elsewhere are the same state. *)
Lemma same_elsewhere_covers (m m' : ModuleState) :
  same_elsewhere m m' → overridden_places m' = overridden_places m → m' = m.
Proof.
  intros S O. destruct m, m'.
  repeat match goal with
         | x : ActorFollowScore.t |- _ => destruct x
         | x : RemoteScheme.t |- _ => destruct x
         | x : ActivityPub.t |- _ => destruct x
         | x : Constraints.t |- _ => destruct x
         | x : Constraints.Actors.t |- _ => destruct x
         | x : Constraints.Avatar.t |- _ => destruct x
         | x : Range.t |- _ => destruct x
         end.
  unfold same_elsewhere, overridden_places in *. simpl in *.
  injection O as -> -> -> -> -> -> -> -> ->.
  repeat match goal with
         | S : _ ∧ _ |- _ => destruct S as [-> S]
         end.
  rewrite S. reflexivity.
Qed.

(** C2. On a test instance the block gives the nine documented places their
    test values, and every other binding and property of the module keeps
    the value it had before the block, which for the state built from the
    literals is its production value.  ([CONFIG.WEBSERVER.HOST] is assigned
    later, by [updateWebserverConfig], from the overridden scheme.) *)
Theorem test_block_overrides_exactly (m : ModuleState) :
  isTestInstance = VBool true →
  test_values (test_block m) ∧ same_elsewhere m (test_block m).
Proof.
  intros T. rewrite (test_block_active m T).
  split; [repeat split | unfold same_elsewhere; repeat split].
Qed.


(** C10. The test-instance block runs before the first
    [updateWebserverConfig()]: once the module is evaluated,
    [CONFIG.WEBSERVER.HOST] is [hostname:port], of the configured hostname
    and port, sanitized against ['http'] on a test instance and against
    ['https'] otherwise. *)
Theorem webserver_host_remote_scheme (p : Runtime) (m : ModuleState) (p' : Runtime) :
  module_init p = Ok (m, p') →
  ∃ hostname port,
    get (config m) "webserver.hostname" = Ok hostname
    ∧ get (config m) "webserver.port" = Ok port
    ∧ (isTestInstance = VBool true →
       RemoteScheme.HTTP (REMOTE_SCHEME m) = "http"
       ∧ Webserver.HOST (Config.WEBSERVER (CONFIG m))
         = sanitizeHost (to_string hostname +:+ ":" +:+ to_string port) "http")
    ∧ (isTestInstance ≠ VBool true →
       RemoteScheme.HTTP (REMOTE_SCHEME m) = "https"
       ∧ Webserver.HOST (Config.WEBSERVER (CONFIG m))
         = sanitizeHost (to_string hostname +:+ ":" +:+ to_string port) "https").
Proof.
  intros Hinit. apply module_init_Ok in Hinit as (C & HC & -> & _).
  apply CONFIG_literal_Ok in HC as (s & rest & https & _ & _ & _ & _ & _ & _ & HH & HP).
  rewrite evaluated_config.
  exists (Webserver.HOSTNAME (Config.WEBSERVER C)), (Webserver.PORT (Config.WEBSERVER C)).
  split; [exact HH|]. split; [exact HP|].
  split; intros T.
  - rewrite (test_block_active _ T). split; reflexivity.
  - rewrite (test_block_inactive _ T). split; reflexivity.
Qed.

(** C3. With the sanitizer of the spec, [webserver.https=false],
    [webserver.hostname="example.com"] and [webserver.port=80] give the
    derived URL ['http://example.com'], the default port left out. *)
Theorem webserver_url_example (p : Runtime) (m : ModuleState) (p' : Runtime) :
  sanitizeUrl = sanitizeUrl_spec →
  module_init p = Ok (m, p') →
  get (config m) "webserver.https" = Ok (VBool false) →
  get (config m) "webserver.hostname" = Ok (VStr "example.com") →
  get (config m) "webserver.port" = Ok (VNum 80) →
  Webserver.URL (Config.WEBSERVER (CONFIG m)) = "http://example.com".
Proof.
  intros Hspec Hinit. apply module_init_Ok in Hinit as (C & HC & -> & _).
  apply CONFIG_literal_Ok in HC as (s & rest & https & _ & _ & _ & Hh & HS & _ & HH & HP).
  rewrite evaluated_config. intros Hhttps Hhost Hport.
  rewrite Hh in Hhttps. rewrite HH in Hhost. rewrite HP in Hport.
  injection Hhttps as ->. injection Hhost as Hhost. injection Hport as Hport.
  assert (Webserver.URL (Config.WEBSERVER (CONFIG
            (updateWebserverConfig (test_block (literals (require_config p).1 C)))))
          = sanitizeUrl (Webserver.SCHEME (Config.WEBSERVER C) +:+ "://"
                         +:+ to_string (Webserver.HOSTNAME (Config.WEBSERVER C))
                         +:+ ":" +:+ to_string (Webserver.PORT (Config.WEBSERVER C)))) as ->.
  { unfold test_block. destruct (strict_eq isTestInstance _); reflexivity. }
  rewrite HS, Hhost, Hport, Hspec. reflexivity.
Qed.

(** ** The local configuration file *)

Lemma append_empty_r (s : string) : s +:+ EmptyString = s.
Proof. induction s as [|c s IH]; [reflexivity | exact (f_equal (String c) IH)]. Qed.

Lemma local_filename_env (p : Runtime) :
  local_filename p
  = "local" +:+ dash_suffix (non_empty (env p !! "NODE_ENV"))
    +:+ dash_suffix (non_empty (env p !! "NODE_APP_INSTANCE")).
Proof.
  unfold local_filename, env_truthy, non_empty.
  destruct (env p !! "NODE_ENV") as [e|];
    destruct (env p !! "NODE_APP_INSTANCE") as [i|];
    repeat case_decide; unfold dash_suffix; rewrite ?append_empty_r; reflexivity.
Qed.

(** C8 (amended). [CONFIG.CUSTOM_FILE] joins the directory of the first
    configuration source with the file name ['local'], followed by ['-'] and
    [NODE_ENV] when that variable is set to a non-empty string, then ['-']
    and [NODE_APP_INSTANCE] when that variable is set to a non-empty string,
    then ['.json']. *)
Theorem CUSTOM_FILE_from_environment (p : Runtime) (m : ModuleState) (p' : Runtime) :
  module_init p = Ok (m, p') →
  ∃ s, getConfigSources (util (config m)) !! 0%nat = Some s
    ∧ Config.CUSTOM_FILE (CONFIG m)
      = join (dirname (name s))
          (("local" +:+ dash_suffix (non_empty (env p !! "NODE_ENV"))
            +:+ dash_suffix (non_empty (env p !! "NODE_APP_INSTANCE"))) +:+ ".json").
Proof.
  intros Hinit. apply module_init_Ok in Hinit as (C & HC & -> & _).
  apply CONFIG_literal_Ok in HC as (s & rest & https & Hs & Hf & _).
  rewrite evaluated_config. exists s. split.
  - rewrite Hs. reflexivity.
  - rewrite evaluated_CUSTOM_FILE, Hf.
    rewrite (local_filename_ext _ p (require_config_env p)).
    rewrite local_filename_env. reflexivity.
Qed.

(** ** Reloading *)

(** C1 (amended). After [reloadConfig] the getters of [CONFIG] return the
    settings of the configuration just loaded, the data properties read
    when the module was evaluated keep their values, and [URL] and [HOST]
    are derived again from those kept values. *)
Theorem reloadConfig_getters_new_data_kept (p : Runtime) (m : ModuleState) :
  getters (reloadConfig p m).1 = get (load_config p) <$> getter_settings
  ∧ loaded_fields (CONFIG (reloadConfig p m).1) = loaded_fields (CONFIG m)
  ∧ Webserver.URL (Config.WEBSERVER (CONFIG (reloadConfig p m).1))
    = sanitizeUrl (Webserver.SCHEME (Config.WEBSERVER (CONFIG m)) +:+ "://"
                   +:+ to_string (Webserver.HOSTNAME (Config.WEBSERVER (CONFIG m)))
                   +:+ ":" +:+ to_string (Webserver.PORT (Config.WEBSERVER (CONFIG m))))
  ∧ Webserver.HOST (Config.WEBSERVER (CONFIG (reloadConfig p m).1))
    = sanitizeHost (to_string (Webserver.HOSTNAME (Config.WEBSERVER (CONFIG m)))
                    +:+ ":" +:+ to_string (Webserver.PORT (Config.WEBSERVER (CONFIG m))))
                   (RemoteScheme.HTTP (REMOTE_SCHEME m)).
Proof. rewrite reloadConfig_unfold. repeat split. Qed.

(** ** Derivation of the webserver URL and host *)

Lemma updateWebserverConfig_idempotent (m : ModuleState) :
  updateWebserverConfig (updateWebserverConfig m) = updateWebserverConfig m.
Proof. reflexivity. Qed.

(** C6 (amended). The derived URL is a function of scheme, hostname and
    port; the derived host is a function of hostname, port and the default
    remote scheme [REMOTE_SCHEME.HTTP]; and deriving again from an already
    derived configuration, directly or through [reloadConfig], changes
    neither. *)
Theorem updateWebserverConfig_deterministic_idempotent (m1 m2 : ModuleState) :
  Webserver.SCHEME (Config.WEBSERVER (CONFIG m1)) = Webserver.SCHEME (Config.WEBSERVER (CONFIG m2)) →
  Webserver.HOSTNAME (Config.WEBSERVER (CONFIG m1))
  = Webserver.HOSTNAME (Config.WEBSERVER (CONFIG m2)) →
  Webserver.PORT (Config.WEBSERVER (CONFIG m1)) = Webserver.PORT (Config.WEBSERVER (CONFIG m2)) →
  Webserver.URL (Config.WEBSERVER (CONFIG (updateWebserverConfig m1)))
  = Webserver.URL (Config.WEBSERVER (CONFIG (updateWebserverConfig m2)))
  ∧ (RemoteScheme.HTTP (REMOTE_SCHEME m1) = RemoteScheme.HTTP (REMOTE_SCHEME m2) →
     Webserver.HOST (Config.WEBSERVER (CONFIG (updateWebserverConfig m1)))
     = Webserver.HOST (Config.WEBSERVER (CONFIG (updateWebserverConfig m2))))
  ∧ updateWebserverConfig (updateWebserverConfig m1) = updateWebserverConfig m1
  ∧ (∀ p : Runtime,
       CONFIG (reloadConfig p (updateWebserverConfig m1)).1
       = CONFIG (updateWebserverConfig m1)).
Proof.
  intros HS HH HP. split; [|split; [|split]].
  - rewrite !updateWebserverConfig_URL. simpl. rewrite HS, HH, HP. reflexivity.
  - intros HR. rewrite !updateWebserverConfig_HOST. simpl. rewrite HH, HP, HR. reflexivity.
  - apply updateWebserverConfig_idempotent.
  - intros p. rewrite reloadConfig_unfold. reflexivity.
Qed.

(** ** Enumeration tables *)

Lemma table_get_key (t : table) (k w : string) :
  table_get t k = Some w → k ∈ keys t.
Proof.
  unfold keys. revert w. induction t as [|[k1 v1] t IH]; intros w G; [discriminate|].
  simpl in G. rewrite fmap_cons. simpl. apply elem_of_cons.
  destruct (table_get t k) as [w'|] eqn:G'.
  - right. apply (IH w'). reflexivity.
  - case_decide; [|discriminate]. left. congruence.
Qed.

(** With distinct keys, every property written in a literal is the one read
    back under its key: none is shadowed by a later one. *)
Lemma table_get_literal (t : table) (k v : string) :
  NoDup (keys t) → (k, v) ∈ t → table_get t k = Some v.
Proof.
  induction t as [|[k' v'] t IH]; intros Hnd Hin.
  - apply elem_of_nil in Hin. contradiction.
  - unfold keys in Hnd. rewrite fmap_cons in Hnd.
    apply NoDup_cons in Hnd as [Hk' Hnd]. simpl in Hk'.
    apply elem_of_cons in Hin as [[= -> ->] | Hin]; simpl.
    + destruct (table_get t k') as [w|] eqn:G.
      * exfalso. apply Hk'. apply (table_get_key t k' w G).
      * case_decide; [reflexivity | contradiction].
    + rewrite (IH Hnd Hin). reflexivity.
Qed.

Ltac distinct_keys := apply (bool_decide_unpack _); vm_compute; exact I.

Lemma literal_tables_NoDup :
  NoDup [ to_string VideoPrivacy_PUBLIC; to_string VideoPrivacy_UNLISTED;
          to_string VideoPrivacy_PRIVATE ] →
  Forall (fun t : table => NoDup (keys t)) literal_tables.
Proof.
  intros Henum. unfold literal_tables.
  repeat (apply Forall_cons; split); try apply Forall_nil;
    try exact Henum; distinct_keys.
Qed.

Lemma test_block_tables (m : ModuleState) :
  enumeration_tables (test_block m) = enumeration_tables m.
Proof. unfold test_block. destruct (strict_eq _ _); reflexivity. Qed.

Lemma updateWebserverConfig_tables (m : ModuleState) :
  enumeration_tables (updateWebserverConfig m) = enumeration_tables m.
Proof. reflexivity. Qed.

Lemma reload_step_tables (m m' : ModuleState) :
  reload_step m m' → enumeration_tables m' = enumeration_tables m.
Proof. intros [p ->]. rewrite reloadConfig_unfold. reflexivity. Qed.

Lemma reloads_tables (m m' : ModuleState) :
  rtc reload_step m m' → enumeration_tables m' = enumeration_tables m.
Proof.
  induction 1 as [m | m m1 m' Hstep _ IH]; [reflexivity|].
  rewrite IH. apply reload_step_tables, Hstep.
Qed.

(** C7. The keys of every enumeration table are pairwise distinct (for
    [VIDEO_PRIVACIES], given that the three members of the imported enum
    name distinct properties); the test-instance block and
    [updateWebserverConfig] leave the tables as they are; and after any
    number of calls to [reloadConfig] the tables read as they did when the
    module was evaluated. *)
Theorem enumeration_tables_stable (p : Runtime) (m : ModuleState) (p' : Runtime)
    (m' : ModuleState) :
  NoDup [ to_string VideoPrivacy_PUBLIC; to_string VideoPrivacy_UNLISTED;
          to_string VideoPrivacy_PRIVATE ] →
  module_init p = Ok (m, p') →
  rtc reload_step m m' →
  Forall (fun t : table => NoDup (keys t)) (enumeration_tables m')
  ∧ enumeration_tables m' = enumeration_tables m
  ∧ (∀ m0, enumeration_tables (test_block m0) = enumeration_tables m0)
  ∧ (∀ m0, enumeration_tables (updateWebserverConfig m0) = enumeration_tables m0).
Proof.
  intros Henum Hinit Hsteps.
  pose proof (reloads_tables m m' Hsteps) as E.
  apply module_init_Ok in Hinit as (C & _ & -> & _).
  rewrite updateWebserverConfig_tables, test_block_tables in E.
  split; [|split; [|split]].
  - rewrite E. apply (literal_tables_NoDup Henum).
  - rewrite updateWebserverConfig_tables, test_block_tables. exact E.
  - apply test_block_tables.
  - apply updateWebserverConfig_tables.
Qed.

End Properties.

(** * The module on concrete processes *)

#[local] Existing Instance node_path.
#[local] Existing Instance video_privacy.

Example process_a_evaluated :
  (fun m => (Config.CUSTOM_FILE (CONFIG m), Config.WEBSERVER (CONFIG m)))
    <$> @initialised (core_utils false) _ _ process_a
  = Some ("/etc/peertube/local-production.json",
          {| Webserver.SCHEME := "http";
             Webserver.WS := "ws";
             Webserver.HOSTNAME := VStr "example.com";
             Webserver.PORT := VNum 80;
             Webserver.URL := "http://example.com";
             Webserver.HOST := "example.com:80" |}).
Proof. reflexivity. Qed.

Example process_t_evaluated :
  (fun m => (Config.CUSTOM_FILE (CONFIG m), Config.WEBSERVER (CONFIG m)))
    <$> @initialised (core_utils true) _ _ process_t
  = Some ("/etc/peertube/local-test-1.json",
          {| Webserver.SCHEME := "http";
             Webserver.WS := "ws";
             Webserver.HOSTNAME := VStr "example.com";
             Webserver.PORT := VNum 80;
             Webserver.URL := "http://example.com";
             Webserver.HOST := "example.com" |}).
Proof. reflexivity. Qed.

(** Truthy values that are not the boolean [true] give the plain schemes. *)
Example scheme_of_truthy_values :
  (fun v =>
     (fun m => Webserver.SCHEME (Config.WEBSERVER (CONFIG m)))
       <$> @initialised (core_utils false) _ _
             (process_of [] (config_of (("webserver.https", v) :: settings_a) sources_a)))
    <$> [ VBool true; VStr "true"; VNum 1; VBool false ]
  = [ Some "https"; Some "http"; Some "http"; Some "http" ].
Proof. reflexivity. Qed.

(** ** Witnesses *)

Lemma module_init_throws_iff_witness :
  returns (getLocalConfigFilePath (require_config process_a).2 (require_config process_a).1)
  ∧ returns (@module_init (core_utils false) _ _ process_a).
Proof.
  destruct (@module_init_throws_iff (core_utils false) node_path video_privacy process_a)
    as (_ & _ & HP & HR).
  assert (getConfigSources (util (require_config process_a).1) ≠ []) as N
    by (vm_compute; discriminate).
  split; [exact (HP N)|]. apply (HR N).
  unfold literal_settings.
  repeat (apply Forall_cons; split; [eexists; reflexivity|]). constructor.
Defined.

Lemma ACTOR_FOLLOW_SCORE_BASE_value_witness :
  ∃ m p', @module_init (core_utils true) _ _ process_t = Ok (m, p')
    ∧ ActorFollowScore.BASE (ACTOR_FOLLOW_SCORE m) = 20.
Proof.
  eexists _, _. split; [reflexivity|].
  apply (proj1 (@ACTOR_FOLLOW_SCORE_BASE_value (core_utils true) _ _ process_t _ _ eq_refl)).
  reflexivity.
Defined.

Lemma test_block_overrides_exactly_witness :
  ∃ C, @CONFIG_literal (core_utils true) _ process_t (load_config process_t) = Ok C
    ∧ let m := literals (load_config process_t) C in
      production_values m
      ∧ test_values (@test_block (core_utils true) m)
      ∧ same_elsewhere m (@test_block (core_utils true) m).
Proof.
  eexists. split; [reflexivity|]. intros m.
  split; [apply literals_production_values|].
  apply (@test_block_overrides_exactly (core_utils true) m). reflexivity.
Defined.


Lemma webserver_host_remote_scheme_witness :
  ∃ m p', @module_init (core_utils true) _ _ process_t = Ok (m, p')
    ∧ ∃ hostname port,
        get (config m) "webserver.hostname" = Ok hostname
        ∧ get (config m) "webserver.port" = Ok port
        ∧ RemoteScheme.HTTP (REMOTE_SCHEME m) = "http"
        ∧ Webserver.HOST (Config.WEBSERVER (CONFIG m))
          = sanitizeHost_spec (to_string hostname +:+ ":" +:+ to_string port) "http".
Proof.
  eexists _, _. split; [reflexivity|].
  destruct (@webserver_host_remote_scheme (core_utils true) _ _ process_t _ _ eq_refl)
    as (hostname & port & HH & HP & HT & _).
  exists hostname, port. split; [exact HH|]. split; [exact HP|]. exact (HT eq_refl).
Defined.

Lemma webserver_url_example_witness :
  ∃ m p', @module_init (core_utils false) _ _ process_a = Ok (m, p')
    ∧ Webserver.URL (Config.WEBSERVER (CONFIG m)) = "http://example.com".
Proof.
  eexists _, _. split; [reflexivity|].
  apply (@webserver_url_example (core_utils false) _ _ process_a _ _ eq_refl eq_refl);
    reflexivity.
Defined.

Lemma CUSTOM_FILE_from_environment_witness :
  ∃ m p', @module_init (core_utils true) _ _ process_t = Ok (m, p')
    ∧ ∃ s, getConfigSources (util (config m)) !! 0%nat = Some s
      ∧ Config.CUSTOM_FILE (CONFIG m)
        = join (dirname (name s))
            (("local" +:+ dash_suffix (non_empty (env process_t !! "NODE_ENV"))
              +:+ dash_suffix (non_empty (env process_t !! "NODE_APP_INSTANCE")))
             +:+ ".json").
Proof.
  eexists _, _. split; [reflexivity|].
  apply (@CUSTOM_FILE_from_environment (core_utils true) _ _ process_t _ _ eq_refl).
Defined.

Lemma updateWebserverConfig_deterministic_idempotent_witness :
  ∃ m1 p', @module_init (core_utils false) _ _ process_a = Ok (m1, p')
    ∧ let m2 := (@reloadConfig (core_utils false) _
                   (with_files (config_of settings_b sources_a) p') m1).1 in
      getters m2 ≠ getters m1
      ∧ Webserver.URL (Config.WEBSERVER (CONFIG (@updateWebserverConfig (core_utils false) m1)))
        = Webserver.URL (Config.WEBSERVER (CONFIG (@updateWebserverConfig (core_utils false) m2)))
      ∧ Webserver.HOST (Config.WEBSERVER (CONFIG (@updateWebserverConfig (core_utils false) m1)))
        = Webserver.HOST (Config.WEBSERVER (CONFIG (@updateWebserverConfig (core_utils false) m2)))
      ∧ @updateWebserverConfig (core_utils false) (@updateWebserverConfig (core_utils false) m1)
        = @updateWebserverConfig (core_utils false) m1.
Proof.
  eexists _, _. split; [reflexivity|]. intros m2.
  split; [vm_compute; discriminate|].
  match goal with
  | |- Webserver.URL (Config.WEBSERVER (CONFIG (updateWebserverConfig ?m1))) = _ ∧ _ =>
      destruct (@updateWebserverConfig_deterministic_idempotent (core_utils false) _
                  m1 m2 eq_refl eq_refl eq_refl) as (HU & HH & HI & _)
  end.
  split; [exact HU|]. split; [exact (HH eq_refl)|]. exact HI.
Defined.

Lemma enumeration_tables_stable_witness :
  ∃ m p', @module_init (core_utils false) _ _ process_a = Ok (m, p')
    ∧ let m' := (@reloadConfig (core_utils false) _
                   (with_files (config_of settings_b sources_a) p') m).1 in
      Forall (fun t : table => NoDup (keys t)) (enumeration_tables m')
      ∧ enumeration_tables m' = enumeration_tables m.
Proof.
  eexists _, _. split; [reflexivity|]. intros m'.
  assert (NoDup [ to_string (VNum 1); to_string (VNum 2); to_string (VNum 3) ]) as Henum.
  { apply (bool_decide_unpack _). vm_compute. exact I. }
  destruct (@enumeration_tables_stable (core_utils false) node_path video_privacy process_a _ _ m'
              Henum eq_refl (rtc_once _ _ (ex_intro _ _ eq_refl)))
    as (HN & HE & _).
  split; [exact HN | exact HE].
Defined.

(** ** Counterexamples *)

(** C1, as stated, fails: started on [settings_a] and reloaded after
    [listen.port] and [admin.email] were edited, the module answers the new
    address from [CONFIG.ADMIN.EMAIL] and the old port from
    [CONFIG.LISTEN.PORT]. *)
Lemma reloadConfig_mixes_old_and_new :
  ∃ m p', @module_init (core_utils false) _ _ process_a = Ok (m, p')
    ∧ let new := config_of settings_b sources_a in
      let m' := (@reloadConfig (core_utils false) _ (with_files new p') m).1 in
      CONFIG_ADMIN_EMAIL m = Ok (VStr "admin@example.com")
      ∧ CONFIG_ADMIN_EMAIL m' = Ok (VStr "root@example.com")
      ∧ get new "admin.email" = Ok (VStr "root@example.com")
      ∧ Listen.PORT (Config.LISTEN (CONFIG m')) = VNum 9000
      ∧ get new "listen.port" = Ok (VNum 9001)
      ∧ Ok (Listen.PORT (Config.LISTEN (CONFIG m'))) ≠ get new "listen.port".
Proof.
  eexists _, _. split; [reflexivity|].
  vm_compute. repeat split; discriminate.
Defined.

(** C6, as stated, fails for the host: a production and a test instance with
    the same scheme, hostname and port derive different hosts. *)
Lemma HOST_differs_for_same_triple :
  ∃ m1 m2, @initialised (core_utils false) _ _ process_a = Some m1
    ∧ @initialised (core_utils true) _ _ process_t = Some m2
    ∧ Webserver.SCHEME (Config.WEBSERVER (CONFIG m1)) = Webserver.SCHEME (Config.WEBSERVER (CONFIG m2))
    ∧ Webserver.HOSTNAME (Config.WEBSERVER (CONFIG m1))
      = Webserver.HOSTNAME (Config.WEBSERVER (CONFIG m2))
    ∧ Webserver.PORT (Config.WEBSERVER (CONFIG m1)) = Webserver.PORT (Config.WEBSERVER (CONFIG m2))
    ∧ Webserver.HOST (Config.WEBSERVER (CONFIG (@updateWebserverConfig (core_utils false) m1)))
      = "example.com:80"
    ∧ Webserver.HOST (Config.WEBSERVER (CONFIG (@updateWebserverConfig (core_utils true) m2)))
      = "example.com"
    ∧ Webserver.HOST (Config.WEBSERVER (CONFIG (@updateWebserverConfig (core_utils false) m1)))
      ≠ Webserver.HOST (Config.WEBSERVER (CONFIG (@updateWebserverConfig (core_utils true) m2))).
Proof.
  eexists _, _. split; [reflexivity|]. split; [reflexivity|].
  vm_compute. repeat split; discriminate.
Defined.

(** C8, as stated, fails when [NODE_ENV] is set to the empty string: no
    suffix is added for it. *)
Lemma CUSTOM_FILE_empty_NODE_ENV :
  ∃ m, @initialised (core_utils false) _ _ process_e = Some m
    ∧ env process_e !! "NODE_ENV" = Some EmptyString
    ∧ local_filename process_e = "local"
    ∧ filename_when_set (env process_e) = "local-"
    ∧ Config.CUSTOM_FILE (CONFIG m) = "/etc/peertube/local.json"
    ∧ join (dirname "/etc/peertube/default.yaml") (filename_when_set (env process_e) +:+ ".json")
      = "/etc/peertube/local-.json"
    ∧ Config.CUSTOM_FILE (CONFIG m)
      ≠ join (dirname "/etc/peertube/default.yaml")
          (filename_when_set (env process_e) +:+ ".json").
Proof.
  eexists. split; [reflexivity|].
  vm_compute. repeat split; discriminate.
Defined.

(** C4, as stated, fails: with a source reported and the setting
    [listen.port] not defined, [getLocalConfigFilePath] returns and
    evaluating the module throws the exception of [config.get]. *)
Lemma module_init_throws_with_a_source :
  getConfigSources (util (require_config process_m).1)
  = [ {| name := "/etc/peertube/default.yaml" |} ]
  ∧ getLocalConfigFilePath (require_config process_m).2 (require_config process_m).1
    = Ok "/etc/peertube/local-production.json"
  ∧ get (require_config process_m).1 "listen.port" = Throw (not_defined "listen.port")
  ∧ @module_init (core_utils false) _ _ process_m = Throw (not_defined "listen.port").
Proof. vm_compute. repeat split. Defined.

(** * Further properties of the module *)

Section Further.

Context `{CoreUtils} `{NodePath} `{VideoPrivacyEnum}.

(** ** The module cache *)

Lemma indexOf_substring (a d b : string) : indexOf (a +:+ d +:+ b) d ≠ -1.
Proof.
  unfold indexOf.
  destruct (String.index 0 d (a +:+ d +:+ b)) as [i|] eqn:E; [lia|].
  exfalso. destruct d as [|c d].
  - destruct (a +:+ EmptyString +:+ b); discriminate.
  - apply (index_correct3 0 (String.length a) _ _ E); [discriminate | lia |].
    clear E. induction a as [|x a IH].
    + change (EmptyString +:+ String c d +:+ b) with (String c d +:+ b).
      generalize (String c d). intros s. induction s as [|y s IHs].
      * destruct b; reflexivity.
      * change (String y s +:+ b) with (String y (s +:+ b)).
        simpl. f_equal. exact IHs.
    + exact IH.
Qed.

(** What [purge] does to [require.cache]: every file whose name contains
    the configuration directory anywhere in it, and the [config] library
    itself, are forgotten; every other file stays cached as it was; nothing
    is added, and the rest of the process is untouched. *)
Theorem purge_cache (p : Runtime) :
  (∀ a b, require_cache (purge p) !! (a +:+ directory p +:+ b) = None)
  ∧ require_cache (purge p) !! resolve_config p = None
  ∧ (∀ f, indexOf f (directory p) = -1 → f ≠ resolve_config p →
       require_cache (purge p) !! f = require_cache p !! f)
  ∧ require_cache (purge p) ⊆ require_cache p
  ∧ env (purge p) = env p
  ∧ resolve_config (purge p) = resolve_config p
  ∧ load_config (purge p) = load_config p.
Proof.
  unfold purge. simpl. repeat split.
  - intros a b. apply lookup_delete_None. right.
    apply map_lookup_filter_None. right. intros x _ N. simpl in N.
    exact (indexOf_substring a (directory p) b N).
  - apply lookup_delete_eq.
  - intros f Hf Hne. rewrite lookup_delete_ne by congruence.
    apply option_eq. intros x. rewrite map_lookup_filter_Some. simpl. tauto.
  - etransitivity; [apply delete_subseteq | apply map_filter_subseteq].
Qed.

(** [require('config')] a second time finds what the first one cached. *)
Lemma require_config_again (p : Runtime) :
  require_config (require_config p).2 = ((require_config p).1, (require_config p).2).
Proof.
  assert (∀ c q, require_config p = (c, q) → require_config q = (c, q)) as A.
  { unfold require_config. intros c q.
    destruct (require_cache p !! resolve_config p) as [[c'|]|] eqn:E;
      intros [= <- <-]; simpl; rewrite ?E, ?lookup_insert_eq; reflexivity. }
  destruct (require_config p) as [c q] eqn:R. simpl. apply (A c q eq_refl).
Qed.

Lemma require_config_purge (p : Runtime) :
  require_config (purge p)
  = (load_config p,
     {| env := env p;
        require_cache :=
          <[resolve_config p := CachedConfig (load_config p)]> (require_cache (purge p));
        resolve_config := resolve_config p;
        load_config := load_config p |}).
Proof.
  unfold require_config. rewrite purge_forgets_config. reflexivity.
Qed.

Lemma reloadConfig_runtime (p : Runtime) (m : ModuleState) :
  (reloadConfig p m).2 = (require_config (purge p)).2.
Proof. unfold reloadConfig. destruct (require_config (purge p)). reflexivity. Qed.

(** The module and the rest of the process share one configuration: in the
    process left by module evaluation, and in the one left by
    [reloadConfig], [require('config')] returns the configuration the
    getters of [CONFIG] read, and loads nothing. *)
Theorem config_shared_with_process :
  (∀ p m p', module_init p = Ok (m, p') → require_config p' = (config m, p'))
  ∧ (∀ p m, require_config (reloadConfig p m).2
            = (config (reloadConfig p m).1, (reloadConfig p m).2)).
Proof.
  split.
  - intros p m p' Hinit. apply module_init_Ok in Hinit as (C & _ & -> & ->).
    rewrite evaluated_config. apply require_config_again.
  - intros p m. rewrite reloadConfig_runtime, reloadConfig_unfold.
    rewrite require_config_again. f_equal.
    rewrite require_config_after_purge. reflexivity.
Qed.

Lemma directory_env (p q : Runtime) : env p = env q → directory p = directory q.
Proof.
  intros E. unfold directory. rewrite (env_truthy_ext p q "NODE_CONFIG_DIR" E). reflexivity.
Qed.

Lemma purge_after_require (p : Runtime) :
  purge (require_config (purge p)).2 = purge p.
Proof.
  rewrite require_config_purge. cbn [snd].
  set (q := {| env := env p;
               require_cache :=
                 <[resolve_config p:=CachedConfig (load_config p)]> (require_cache (purge p));
               resolve_config := resolve_config p;
               load_config := load_config p |}).
  assert (directory q = directory p) as D by (apply directory_env; reflexivity).
  unfold purge at 1. rewrite D. subst q. cbn [env require_cache resolve_config load_config].
  unfold purge. cbn [env require_cache resolve_config load_config].
  f_equal.
  rewrite map_filter_insert.
  destruct (decide _); cbn [fst].
  - rewrite delete_insert_eq, !map_filter_delete, !delete_delete_eq.
    rewrite map_filter_filter. f_equal.
    apply map_filter_ext. intros f x _. cbn [fst]. tauto.
  - rewrite !map_filter_delete, !delete_delete_eq.
    rewrite map_filter_filter. f_equal.
    apply map_filter_ext. intros f x _. cbn [fst]. tauto.
Qed.

(** Reloading twice in a row is reloading once: called again in the process
    it left, with the files unchanged, [reloadConfig] returns the same
    module state and the same process. *)
Theorem reloadConfig_twice (p : Runtime) (m : ModuleState) :
  reloadConfig (reloadConfig p m).2 (reloadConfig p m).1 = reloadConfig p m.
Proof.
  rewrite reloadConfig_runtime.
  apply injective_projections.
  - rewrite !reloadConfig_unfold. rewrite require_config_purge. reflexivity.
  - rewrite !reloadConfig_runtime. rewrite purge_after_require. reflexivity.
Qed.

(** ** The module state over a process lifetime *)

Lemma evaluated_derived (c : IConfig) (C : Config.t) :
  let m := updateWebserverConfig (test_block (literals c C)) in
  updateWebserverConfig m = m.
Proof. apply updateWebserverConfig_idempotent. Qed.

Lemma reload_step_derived (m m' : ModuleState) :
  updateWebserverConfig m = m → reload_step m m' → m' = set_config (config m') m.
Proof.
  intros D [p ->]. rewrite reloadConfig_unfold.
  change (updateWebserverConfig (set_config (load_config p) m))
    with (set_config (load_config p) (updateWebserverConfig m)).
  rewrite D. reflexivity.
Qed.

Lemma reloads_keep_derived_state (m m' : ModuleState) :
  updateWebserverConfig m = m →
  rtc reload_step m m' →
  m' = set_config (config m') m.
Proof.
  intros D Hsteps. induction Hsteps as [m | m m1 m' Hstep _ IH].
  - destruct m. reflexivity.
  - pose proof (reload_step_derived m m1 D Hstep) as E1.
    assert (updateWebserverConfig m1 = m1) as D1.
    { rewrite E1.
      change (updateWebserverConfig (set_config (config m1) m))
        with (set_config (config m1) (updateWebserverConfig m)).
      rewrite D. reflexivity. }
    rewrite (IH D1) at 1. rewrite E1. reflexivity.
Qed.

Lemma module_init_derived (p : Runtime) (m : ModuleState) (p' : Runtime) :
  module_init p = Ok (m, p') → updateWebserverConfig m = m.
Proof.
  intros Hinit. apply module_init_Ok in Hinit as (C & _ & -> & _).
  apply evaluated_derived.
Qed.

(** However many times [reloadConfig] runs after the module is evaluated,
    the only binding that changes is the variable [config]: every exported
    constant, the data of [CONFIG] with [URL] and [HOST] included, is as
    module evaluation left it. *)
Theorem reloads_change_config_only (p : Runtime) (m : ModuleState) (p' : Runtime)
    (m' : ModuleState) :
  module_init p = Ok (m, p') →
  rtc reload_step m m' →
  m' = set_config (config m') m.
Proof.
  intros Hinit Hsteps.
  exact (reloads_keep_derived_state m m' (module_init_derived p m p' Hinit) Hsteps).
Qed.

(** [updateWebserverConfig] assigns [URL] and [HOST] and nothing else: it
    leaves a state as it is exactly when the two fields already hold the
    sanitized values. *)
Theorem updateWebserverConfig_fixed_point (m : ModuleState) :
  updateWebserverConfig m = m
  ↔ Webserver.URL (Config.WEBSERVER (CONFIG m))
    = sanitizeUrl (Webserver.SCHEME (Config.WEBSERVER (CONFIG m)) +:+ "://"
                   +:+ to_string (Webserver.HOSTNAME (Config.WEBSERVER (CONFIG m)))
                   +:+ ":" +:+ to_string (Webserver.PORT (Config.WEBSERVER (CONFIG m))))
    ∧ Webserver.HOST (Config.WEBSERVER (CONFIG m))
      = sanitizeHost (host_and_port m) (RemoteScheme.HTTP (REMOTE_SCHEME m)).
Proof.
  split.
  - intros E. split.
    + rewrite <- E at 1. reflexivity.
    + rewrite <- E at 1. reflexivity.
  - intros [EU EH]. destruct m as [? ? ? ? ? ? ? ? ? ? ? ? ? ? C].
    destruct C as [? ? ? ? W]. destruct W. simpl in *.
    unfold host_and_port in EH. simpl in EH.
    unfold updateWebserverConfig. simpl. rewrite <- EU, <- EH. reflexivity.
Qed.

(** ** Errors *)

(** [getLocalConfigFilePath] raises one exception only, ['Invalid config
    source.'], and only when the library reports no source: the read of
    [configSources[0].name] is guarded by the length test and never fails,
    whatever the environment holds. *)
Theorem getLocalConfigFilePath_only_error (p : Runtime) (c : IConfig) (e : error) :
  getLocalConfigFilePath p c = Throw e →
  e = Error "Invalid config source."
  ∧ getConfigSources (util c) = [].
Proof.
  destruct (getConfigSources (util c)) as [|s rest] eqn:E.
  - rewrite (getLocalConfigFilePath_nil p c E). intros [= <-]. auto.
  - rewrite (getLocalConfigFilePath_cons p c s rest E). discriminate.
Qed.

(** ** The local file name *)

Lemma append_assoc (a b c : string) : (a +:+ b) +:+ c = a +:+ b +:+ c.
Proof.
  induction a as [|x a IH]; [reflexivity|].
  exact (f_equal (String x) IH).
Qed.

Lemma append_nonempty_l (a b : string) : a ≠ EmptyString → a +:+ b ≠ EmptyString.
Proof. destruct a; [contradiction | discriminate]. Qed.

(** The local file name does not tell the two variables apart: [NODE_ENV]
    set to [e-i] with no [NODE_APP_INSTANCE] names the same file as
    [NODE_ENV] set to [e] with [NODE_APP_INSTANCE] set to [i]. *)
Theorem local_file_shared_by_environments (p q : Runtime) (e i : string) (c : IConfig) :
  e ≠ EmptyString →
  i ≠ EmptyString →
  env p !! "NODE_ENV" = Some (e +:+ "-" +:+ i) →
  env p !! "NODE_APP_INSTANCE" = None →
  env q !! "NODE_ENV" = Some e →
  env q !! "NODE_APP_INSTANCE" = Some i →
  getLocalConfigFilePath p c = getLocalConfigFilePath q c.
Proof.
  intros He Hi P1 P2 Q1 Q2.
  assert (local_filename p = local_filename q) as E.
  { unfold local_filename, env_truthy. rewrite P1, P2, Q1, Q2.
    pose proof (append_nonempty_l e ("-" +:+ i) He).
    repeat case_decide; try contradiction.
    change ("local" +:+ "-" +:+ e +:+ "-" +:+ i = ("local" +:+ "-" +:+ e) +:+ "-" +:+ i).
    rewrite !append_assoc. reflexivity. }
  unfold getLocalConfigFilePath. rewrite E. reflexivity.
Qed.

(** ** Tables that go together *)

Lemma table_get_elem (t : table) (k v : string) :
  table_get t k = Some v → (k, v) ∈ t.
Proof.
  induction t as [|[k1 v1] t IH]; intros G; [discriminate|].
  simpl in G. apply elem_of_cons.
  destruct (table_get t k) as [w|] eqn:G'.
  - right. apply IH. exact G.
  - case_decide; [|discriminate]. left. congruence.
Qed.

(** On a production and on a test instance alike: every extension that
    [VIDEO_MIMETYPE_EXT] gives to a video type is an extension
    [CONSTRAINTS_FIELDS.VIDEOS.EXTNAME] allows, every extension that
    [AVATAR_MIMETYPE_EXT] gives to an image type is one
    [CONSTRAINTS_FIELDS.ACTORS.AVATAR.EXTNAME] allows, and the types listed
    in [ACTIVITY_PUB.URL_MIME_TYPES.VIDEO] are exactly the keys of
    [VIDEO_MIMETYPE_EXT]. *)
Theorem mimetype_extensions_allowed (p : Runtime) (m : ModuleState) (p' : Runtime) :
  module_init p = Ok (m, p') →
  (∀ k v, table_get (VIDEO_MIMETYPE_EXT m) k = Some v →
          v ∈ Constraints.Videos.EXTNAME (Constraints.VIDEOS (CONSTRAINTS_FIELDS m)))
  ∧ (∀ k v, table_get (AVATAR_MIMETYPE_EXT m) k = Some v →
            v ∈ Constraints.Avatar.EXTNAME
                  (Constraints.Actors.AVATAR (Constraints.ACTORS (CONSTRAINTS_FIELDS m))))
  ∧ (∀ k, k ∈ UrlMimeTypes.VIDEO (ActivityPub.URL_MIME_TYPES (ACTIVITY_PUB m))
          ↔ is_Some (table_get (VIDEO_MIMETYPE_EXT m) k)).
Proof.
  intros Hinit. apply module_init_Ok in Hinit as (C & _ & -> & _).
  unfold test_block. destruct (strict_eq isTestInstance _).
  all: cbn [updateWebserverConfig test_overrides literals set_CONFIG set_ACTOR_FOLLOW_SCORE
            set_JOBS_FETCHING_INTERVAL set_REMOTE_SCHEME set_STATIC_MAX_AGE set_ACTIVITY_PUB
            set_CONSTRAINTS_FIELDS set_SCHEDULER_INTERVAL VIDEO_MIMETYPE_EXT
            AVATAR_MIMETYPE_EXT CONSTRAINTS_FIELDS ACTIVITY_PUB].
  all: split; [|split].
  all: try (intros k v G; apply table_get_elem in G;
            match goal with
            | G : _ ∈ ?t |- _ ∈ ?l =>
                assert (Forall (fun kv : string * string => kv.2 ∈ l) t) as F
                  by (apply (bool_decide_unpack _); vm_compute; exact I);
                rewrite Forall_forall in F; exact (F (k, v) G)
            end).
  all: intros k; split.
  all: try (intros G;
            match goal with
            | G : _ ∈ ?l |- is_Some (table_get ?t _) =>
                assert (Forall (fun k : string => is_Some (table_get t k)) l) as F
                  by (apply (bool_decide_unpack _); vm_compute; exact I);
                rewrite Forall_forall in F; exact (F k G)
            end).
  all: intros [v G]; apply table_get_elem in G;
    match goal with
    | G : _ ∈ ?t |- _ ∈ ?l =>
        assert (Forall (fun kv : string * string => kv.1 ∈ l) t) as F
          by (apply (bool_decide_unpack _); vm_compute; exact I);
        rewrite Forall_forall in F; exact (F (k, v) G)
    end.
Qed.

(** ** Schemes *)

(** Secure and plain schemes are never mixed: at every moment of a process
    lifetime, [CONFIG.WEBSERVER.SCHEME] with [CONFIG.WEBSERVER.WS], and
    [REMOTE_SCHEME.HTTP] with [REMOTE_SCHEME.WS], are ['https'] with
    ['wss'] or ['http'] with ['ws']. *)
Theorem schemes_paired (p : Runtime) (m : ModuleState) (p' : Runtime) (m' : ModuleState) :
  module_init p = Ok (m, p') →
  rtc reload_step m m' →
  paired (Webserver.SCHEME (Config.WEBSERVER (CONFIG m')))
         (Webserver.WS (Config.WEBSERVER (CONFIG m')))
  ∧ paired (RemoteScheme.HTTP (REMOTE_SCHEME m')) (RemoteScheme.WS (REMOTE_SCHEME m')).
Proof.
  intros Hinit Hsteps.
  rewrite (reloads_keep_derived_state m m' (module_init_derived p m p' Hinit) Hsteps).
  change (CONFIG (set_config (config m') m)) with (CONFIG m).
  change (REMOTE_SCHEME (set_config (config m') m)) with (REMOTE_SCHEME m).
  apply module_init_Ok in Hinit as (C & HC & -> & _).
  apply CONFIG_literal_Ok in HC as (s & rest & https & _ & _ & _ & _ & HS & HW & _).
  destruct (evaluated_webserver (require_config p).1 C) as [-> ->].
  rewrite HS, HW. unfold paired, test_block. split.
  - destruct (strict_eq https _); auto.
  - destruct (strict_eq isTestInstance _); simpl; auto.
Qed.

End Further.

(** ** A test instance beside a production instance *)

Lemma CONFIG_literal_helpers (Ut Up : CoreUtils) `{NodePath} (p : Runtime) (c : IConfig) :
  @buildPath Ut = @buildPath Up →
  @CONFIG_literal Ut _ p c = @CONFIG_literal Up _ p c.
Proof. intros E. unfold CONFIG_literal. rewrite E. reflexivity. Qed.

(** Evaluated in the same process with the same helpers, a test instance
    and a production instance end in states that differ in the nine
    overridden places and in [CONFIG.WEBSERVER.HOST], and nowhere else: the
    test state with the production host put back agrees with the
    production state everywhere outside the nine places.  The two hosts are
    the same [hostname:port], sanitized against ['http'] and against
    ['https']. *)
Theorem test_instance_beside_production (Ut Up : CoreUtils) `{NodePath} `{VideoPrivacyEnum}
    (p : Runtime) (mt : ModuleState) (pt : Runtime) (mp : ModuleState) (pp : Runtime) :
  @buildPath Ut = @buildPath Up →
  @sanitizeUrl Ut = @sanitizeUrl Up →
  @sanitizeHost Ut = @sanitizeHost Up →
  @isTestInstance Ut = VBool true →
  @isTestInstance Up ≠ VBool true →
  @module_init Ut _ _ p = Ok (mt, pt) →
  @module_init Up _ _ p = Ok (mp, pp) →
  test_values mt
  ∧ production_values mp
  ∧ same_elsewhere mp
      (with_HOST (Webserver.HOST (Config.WEBSERVER (CONFIG mp))) mt)
  ∧ Webserver.HOST (Config.WEBSERVER (CONFIG mt))
    = @sanitizeHost Up (host_and_port mp) "http"
  ∧ Webserver.HOST (Config.WEBSERVER (CONFIG mp))
    = @sanitizeHost Up (host_and_port mp) "https"
  ∧ pt = pp.
Proof.
  intros Eb Eu Eh Tt Tp Ht Hp.
  apply module_init_Ok in Ht as (Ct & HCt & -> & ->).
  apply module_init_Ok in Hp as (Cp & HCp & -> & ->).
  rewrite (CONFIG_literal_helpers Ut Up _ _ Eb) in HCt.
  rewrite HCp in HCt. injection HCt as <-.
  rewrite (@test_block_active Ut _ Tt), (@test_block_inactive Up _ Tp).
  unfold updateWebserverConfig, host_and_port, with_HOST. simpl.
  rewrite Eu, Eh.
  split; [repeat split|]. split; [repeat split|].
  split; [unfold same_elsewhere; simpl; repeat split|].
  auto.
Qed.

(** ** Witnesses of the further properties *)

Lemma purge_cache_witness :
  require_cache (@purge (core_utils false) _ process_c) !! "/etc/peertube/default.js" = None
  ∧ require_cache (@purge (core_utils false) _ process_c)
      !! "/srv/peertube/node_modules/config/lib/config.js" = None
  ∧ require_cache (@purge (core_utils false) _ process_c) !! "/srv/peertube/dist/server.js"
    = Some CachedOther.
Proof.
  destruct (@purge_cache (core_utils false) node_path process_c) as (A & B & K & _).
  split; [exact (A EmptyString "/default.js")|]. split; [exact B|].
  rewrite K; [reflexivity | reflexivity | discriminate].
Defined.

Lemma config_shared_with_process_witness :
  ∃ m p', @module_init (core_utils false) _ _ process_a = Ok (m, p')
    ∧ require_config p' = (config m, p').
Proof.
  eexists _, _. split; [reflexivity|].
  apply (proj1 (@config_shared_with_process (core_utils false) node_path video_privacy)
           process_a _ _ eq_refl).
Defined.

Lemma reloads_change_config_only_witness :
  ∃ m p', @module_init (core_utils false) _ _ process_a = Ok (m, p')
    ∧ let m' := (@reloadConfig (core_utils false) _
                   (with_files (config_of settings_b sources_a) p') m).1 in
      m' = set_config (config m') m.
Proof.
  eexists _, _. split; [reflexivity|]. intros m'.
  apply (@reloads_change_config_only (core_utils false) node_path video_privacy
           process_a _ _ m' eq_refl (rtc_once _ _ (ex_intro _ _ eq_refl))).
Defined.

Lemma getLocalConfigFilePath_only_error_witness :
  ∃ e, getLocalConfigFilePath process_n (load_config process_n) = Throw e
    ∧ e = Error "Invalid config source."
    ∧ getConfigSources (util (load_config process_n)) = [].
Proof.
  eexists. split; [reflexivity|].
  apply (@getLocalConfigFilePath_only_error node_path process_n (load_config process_n) _
           eq_refl).
Defined.

Lemma local_file_shared_by_environments_witness :
  getLocalConfigFilePath process_s (load_config process_s)
  = getLocalConfigFilePath process_s2 (load_config process_s).
Proof.
  apply (@local_file_shared_by_environments node_path process_s process_s2 "staging" "2");
    [discriminate | discriminate | reflexivity | reflexivity | reflexivity | reflexivity].
Defined.

Lemma mimetype_extensions_allowed_witness :
  ∃ m p', @module_init (core_utils true) _ _ process_t = Ok (m, p')
    ∧ table_get (VIDEO_MIMETYPE_EXT m) "video/ogg" = Some ".ogv"
    ∧ ".ogv" ∈ Constraints.Videos.EXTNAME (Constraints.VIDEOS (CONSTRAINTS_FIELDS m)).
Proof.
  eexists _, _. split; [reflexivity|]. split; [reflexivity|].
  apply (proj1 (@mimetype_extensions_allowed (core_utils true) node_path video_privacy
                  process_t _ _ eq_refl) "video/ogg" ".ogv").
  reflexivity.
Defined.

Lemma schemes_paired_witness :
  ∃ m p', @module_init (core_utils true) _ _ process_t = Ok (m, p')
    ∧ let m' := (@reloadConfig (core_utils true) _
                   (with_files (config_of settings_b sources_a) p') m).1 in
      paired (Webserver.SCHEME (Config.WEBSERVER (CONFIG m')))
             (Webserver.WS (Config.WEBSERVER (CONFIG m')))
      ∧ paired (RemoteScheme.HTTP (REMOTE_SCHEME m')) (RemoteScheme.WS (REMOTE_SCHEME m')).
Proof.
  eexists _, _. split; [reflexivity|]. intros m'.
  apply (@schemes_paired (core_utils true) node_path video_privacy
           process_t _ _ m' eq_refl (rtc_once _ _ (ex_intro _ _ eq_refl))).
Defined.

Lemma test_instance_beside_production_witness :
  ∃ mt pt mp pp,
    @module_init (core_utils true) _ _ process_t = Ok (mt, pt)
    ∧ @module_init (core_utils false) _ _ process_t = Ok (mp, pp)
    ∧ same_elsewhere mp (with_HOST (Webserver.HOST (Config.WEBSERVER (CONFIG mp))) mt)
    ∧ Webserver.HOST (Config.WEBSERVER (CONFIG mt)) = "example.com"
    ∧ Webserver.HOST (Config.WEBSERVER (CONFIG mp)) = "example.com:80".
Proof.
  eexists _, _, _, _. split; [reflexivity|]. split; [reflexivity|].
  destruct (@test_instance_beside_production (core_utils true) (core_utils false)
              node_path video_privacy process_t _ _ _ _
              eq_refl eq_refl eq_refl eq_refl ltac:(discriminate) eq_refl eq_refl)
    as (_ & _ & S & Ht & Hp & _).
  split; [exact S|]. split; [exact Ht | exact Hp].
Defined.
